(** * django-dynamic-models: the definition entities and their helpers

    A shallow embedding of [dynamic_models/utils.py] and
    [dynamic_models/models.py], followed by the properties of the design
    document that concern them.

    Python objects are mutable; a method is embedded as a function from the
    state it can reach (the receiver together with the process-wide state) to
    an outcome and the state it leaves behind.  An exception does not undo
    the mutations performed before it was raised, so the state is returned on
    both outcomes. *)

From Stdlib Require Import String Ascii List ZArith Bool Lia.
From stdpp Require Import base option gmap strings list fin_maps.

Local Open Scope string_scope.

(* ===================================================================== *)
(** ** Python values, exceptions and outcomes                             *)
(* ===================================================================== *)

(** The on-delete behaviours that [django.db.models] exports as module-level
    functions; each is its own [__name__]. *)
Inductive on_delete_policy :=
  | CASCADE | PROTECT | RESTRICT | SET_NULL | SET_DEFAULT | DO_NOTHING.

(** A callable is one of the behaviours above or any other function object,
    of which only [__name__] is observed (for instance the closure
    [set_on_delete] that [models.SET(value)] returns).  Every callable of
    this type has a [__name__]; callables that have none (a
    [functools.partial] object, an instance with [__call__]), on which
    reading [__name__] raises [AttributeError], are not represented. *)
Inductive callable :=
  | Policy (p : on_delete_policy)
  | Function (dunder_name : string).

(** The values stored in the options mapping of a field definition. *)
Inductive pyvalue :=
  | VNone
  | VBool (b : bool)
  | VInt (z : Z)
  | VStr (s : string)
  | VCallable (c : callable).

(** Exceptions.  The last constructor stands for whatever a collaborator
    outside these two files raises (the ORM, the database driver, the model
    factory, the schema editors); it passes through the code unchanged. *)
Inductive exn :=
  | NullFieldChangedError (msg : string)
  | InvalidFieldNameError (msg : string)
  | FieldDoesNotExist (msg : string)
  | LookupError (msg : string)
  | KeyError (key : string)
  | AttributeError (attr : string)
  | ValidationError (msg : string)
  | ExternalError (what : string).

Inductive result (A : Type) :=
  | Ok (a : A)
  | Raise (e : exn).
Arguments Ok {A} a.
Arguments Raise {A} e.

(** What a collaborator hands back: a value or the description of its
    failure. *)
Definition ext (A : Type) : Type := A + string.

(** [bool(v)] *)
Definition truthy (v : pyvalue) : bool :=
  match v with
  | VNone => false
  | VBool b => b
  | VInt z => negb (z =? 0)%Z
  | VStr s => negb (String.eqb s "")
  | VCallable _ => true
  end.

(** Truthiness of a [str]. *)
Definition str_truthy (s : string) : bool := negb (String.eqb s "").

(** *** Computations over a state [St] that may raise *)

Definition M (St A : Type) : Type := St -> result A * St.

Definition ret {St A} (a : A) : M St A := fun s => (Ok a, s).

Definition raise {St A} (e : exn) : M St A := fun s => (Raise e, s).

Definition bind {St A B} (c : M St A) (k : A -> M St B) : M St B :=
  fun s =>
    match c s with
    | (Ok a, s') => k a s'
    | (Raise e, s') => (Raise e, s')
    end.

Definition gets {St A} (f : St -> A) : M St A := fun s => (Ok (f s), s).

Definition modify {St} (f : St -> St) : M St unit := fun s => (Ok tt, f s).

(** [try: c except <exceptions selected by h>: handler] *)
Definition try_except {St A} (c : M St A) (h : exn -> option (M St A)) : M St A :=
  fun s =>
    match c s with
    | (Ok a, s') => (Ok a, s')
    | (Raise e, s') =>
        match h e with
        | Some handler => handler s'
        | None => (Raise e, s')
        end
    end.

(** Calling a collaborator that works on the part [get] of the state. *)
Definition call {St P A} (get : St -> P) (set : P -> St -> St)
    (f : P -> ext A * P) : M St A :=
  fun s =>
    match f (get s) with
    | (inl a, p) => (Ok a, set p s)
    | (inr what, p) => (Raise (ExternalError what), set p s)
    end.

(** Reading from a collaborator that only looks at the part [get]. *)
Definition query {St P A} (get : St -> P) (f : P -> ext A) : M St A :=
  fun s =>
    match f (get s) with
    | inl a => (Ok a, s)
    | inr what => (Raise (ExternalError what), s)
    end.

(** A generator function with a single [yield] that no [try] statement
    encloses: the code before the [yield], which produces the yielded value,
    and the code after it. *)
Record generator (St Y : Type) := {
  before_yield : M St Y;
  after_yield : Y -> M St unit;
}.
Arguments before_yield {St Y} g.
Arguments after_yield {St Y} g.

(** [with contextmanager(g)() as y: body].  [__enter__] runs the generator
    up to its [yield].  When the body completes (also by [return]),
    [__exit__] resumes the generator, which runs the code after the
    [yield].  When the body raises, [__exit__] throws the exception into the
    generator at the [yield]; nothing there catches it, the generator ends
    and the exception propagates. *)
Definition with_contextmanager {St Y A} (g : generator St Y) (body : Y -> M St A) : M St A :=
  fun s =>
    match before_yield g s with
    | (Raise e, s1) => (Raise e, s1)
    | (Ok y, s1) =>
        match body y s1 with
        | (Ok a, s2) =>
            match after_yield g y s2 with
            | (Ok _, s3) => (Ok a, s3)
            | (Raise e, s3) => (Raise e, s3)
            end
        | (Raise e, s2) => (Raise e, s2)
        end
    end.

Declare Scope py_scope.
Delimit Scope py_scope with py.
Notation "'do' x <- c ; k" := (bind c (fun x => k))
  (at level 10, x name, c at level 99, k at level 200) : py_scope.
Notation "'run' c ; k" := (bind c (fun _ => k))
  (at level 10, c at level 99, k at level 200) : py_scope.

(* ===================================================================== *)
(** ** Strings                                                            *)
(* ===================================================================== *)

(** Names are ASCII text; the three methods below are [str.lower],
    [str.title] and [str.replace] with one-character arguments, on such
    text.  Bytes outside the ASCII letters are left as they are. *)

Definition is_upper (c : ascii) : bool :=
  let n := nat_of_ascii c in (65 <=? n)%nat && (n <=? 90)%nat.

Definition is_lower (c : ascii) : bool :=
  let n := nat_of_ascii c in (97 <=? n)%nat && (n <=? 122)%nat.

Definition to_lower (c : ascii) : ascii :=
  if is_upper c then ascii_of_nat (nat_of_ascii c + 32) else c.

Definition to_upper (c : ascii) : ascii :=
  if is_lower c then ascii_of_nat (nat_of_ascii c - 32) else c.

Fixpoint str_map (f : ascii -> ascii) (s : string) : string :=
  match s with
  | EmptyString => EmptyString
  | String c s' => String (f c) (str_map f s')
  end.

Definition lower (s : string) : string := str_map to_lower s.

(** [s.replace(old, new)] for single characters [old] and [new]. *)
Definition replace (old new : ascii) (s : string) : string :=
  str_map (fun c => if Ascii.eqb c old then new else c) s.

(** [s.replace(old, "")] for a single character [old]. *)
Fixpoint remove_char (old : ascii) (s : string) : string :=
  match s with
  | EmptyString => EmptyString
  | String c s' =>
      if Ascii.eqb c old then remove_char old s' else String c (remove_char old s')
  end.

(** [str.title]: a cased character is upper-cased when the character before
    it is uncased (or it is the first one), lower-cased otherwise. *)
Fixpoint title_from (previous_is_cased : bool) (s : string) : string :=
  match s with
  | EmptyString => EmptyString
  | String c s' =>
      let cased := is_upper c || is_lower c in
      String (if previous_is_cased then to_lower c else to_upper c)
             (title_from cased s')
  end.

Definition title (s : string) : string := title_from false s.

(** [x in xs] for a tuple or list of strings. *)
Fixpoint str_in (x : string) (xs : list string) : bool :=
  match xs with
  | [] => false
  | y :: ys => String.eqb x y || str_in x ys
  end.

(* ===================================================================== *)
(** ** The process-wide state                                             *)
(* ===================================================================== *)

(** One row of [introspection.get_table_description]: Django's [FieldInfo]
    tuple, of which the code reads [name] and [null_ok]. *)
Record FieldInfo := { fi_name : string; fi_null_ok : bool }.

(** The storage engine as the schema editors and the introspection see it:
    the physical tables with their columns, and the DDL statements executed
    so far. *)
Record database := {
  db_tables : gmap string (list FieldInfo);
  db_ddl : list string;
}.

(** A runtime type descriptor (the class the model factory builds) and its
    fields, as far as [_meta.get_field] is concerned. *)
Record RuntimeField := { rf_name : string; rf_null : bool }.
Record RuntimeModel := { rm_name : string; rm_fields : list RuntimeField }.

(** The rows of the two definition tables, as the ORM stores them. *)
Record ModelRow := {
  mr_pk : option nat;
  mr_name : string;
  mr_db_name : string;
  mr_managed : bool;
  mr_db_table_name : option string;
}.

Record FieldRow := {
  fr_pk : option nat;
  fr_name : string;
  fr_model_schema_id : option nat;
  fr_class_name : string;
  fr_kwargs : gmap string pyvalue;
}.

Record Store := {
  st_models : gmap nat ModelRow;
  st_fields : gmap nat FieldRow;
}.

(** The schema editors of [dynamic_models.schema] hold what their
    constructors are given. *)
Record ModelSchemaEditor := {
  mse_initial_model : option RuntimeModel;
  mse_db_name : string;
}.

Record FieldSchemaEditor := {
  fse_initial_field : option RuntimeField;
  fse_db_name : string;
}.

Record world := {
  w_next_cursor : nat;                                  (* connection *)
  w_open_cursors : gset nat;
  w_all_models : gmap string (gmap string RuntimeModel); (* apps.all_models *)
  w_store : Store;                                      (* definition rows *)
  w_database : database;                                (* physical schema *)
}.

Definition set_cursors (n : nat) (o : gset nat) (w : world) : world :=
  {| w_next_cursor := n; w_open_cursors := o; w_all_models := w_all_models w;
     w_store := w_store w; w_database := w_database w |}.

Definition set_all_models (a : gmap string (gmap string RuntimeModel)) (w : world) : world :=
  {| w_next_cursor := w_next_cursor w; w_open_cursors := w_open_cursors w;
     w_all_models := a; w_store := w_store w; w_database := w_database w |}.

Definition set_store (s : Store) (w : world) : world :=
  {| w_next_cursor := w_next_cursor w; w_open_cursors := w_open_cursors w;
     w_all_models := w_all_models w; w_store := s; w_database := w_database w |}.

Definition set_database (d : database) (w : world) : world :=
  {| w_next_cursor := w_next_cursor w; w_open_cursors := w_open_cursors w;
     w_all_models := w_all_models w; w_store := w_store w; w_database := d |}.

(** ** The collaborators

    Everything the two files call and do not define.  Each collaborator is
    given the part of the state it works on, and either returns or fails:
    the ORM works on the rows of the definition tables, the model factory
    on the registry of classes (reading the rows), the schema editors of
    [dynamic_models.schema] on the storage engine, the introspection reads
    the storage engine.  A schema editor method also returns the editor as
    the call leaves it. *)
Record Collaborators := {
  (* django.utils.text *)
  slugify : string -> string;
  (* attributes of django.db.models other than the on-delete behaviours *)
  models_other_attr : string -> option pyvalue;
  (* connection.introspection *)
  table_names : nat -> database -> ext (list string);
  get_table_description : nat -> string -> database -> ext (list FieldInfo);
  (* django.db.models.Model.save and .delete on the two definition tables *)
  orm_save_model : ModelRow -> Store -> ext nat * Store;
  orm_delete_model : ModelRow -> Store -> ext unit * Store;
  orm_save_field : FieldRow -> Store -> ext nat * Store;
  orm_delete_field : FieldRow -> Store -> ext unit * Store;
  (* dynamic_models.config *)
  dynamic_models_app_label : string;
  (* dynamic_models.factory.ModelFactory *)
  factory_get_model :
    ModelRow -> Store -> gmap string (gmap string RuntimeModel) ->
    ext RuntimeModel * gmap string (gmap string RuntimeModel);
  factory_destroy_model :
    ModelRow -> gmap string (gmap string RuntimeModel) ->
    ext unit * gmap string (gmap string RuntimeModel);
  (* dynamic_models.schema *)
  update_table :
    ModelSchemaEditor -> RuntimeModel -> database -> ext ModelSchemaEditor * database;
  drop_table :
    ModelSchemaEditor -> RuntimeModel -> database -> ext ModelSchemaEditor * database;
  update_column :
    FieldSchemaEditor -> RuntimeModel -> option RuntimeField -> database ->
    ext FieldSchemaEditor * database;
  drop_column :
    FieldSchemaEditor -> RuntimeModel -> option RuntimeField -> database ->
    ext FieldSchemaEditor * database;
}.

(** [model._meta.get_field(name)] *)
Definition meta_get_field {St} (model : RuntimeModel) (name : string) : M St RuntimeField :=
  match List.find (fun f => String.eqb (rf_name f) name) (rm_fields model) with
  | Some f => ret f
  | None => raise (FieldDoesNotExist (rm_name model ++ " has no field named '" ++ name ++ "'"))
  end.

(** [apps.get_model(app_label, model_name)]: the registered class, looked up
    under the lower-cased name, or [LookupError]. *)
Definition apps_get_model (app_label model_name : string) : M world RuntimeModel :=
  fun w =>
    match w_all_models w !! app_label with
    | Some models =>
        match models !! lower model_name with
        | Some m => (Ok m, w)
        | None => (Raise (LookupError ("App '" ++ app_label ++ "' doesn't have a '"
                                        ++ model_name ++ "' model.")), w)
        end
    | None => (Raise (LookupError ("No installed app with label '" ++ app_label ++ "'.")), w)
    end.

(** [apps.all_models[app_label]]: [all_models] is a [defaultdict(dict)], so
    reading a missing label stores an empty mapping under it. *)
Definition all_models_getitem (app_label : string) : M world (gmap string RuntimeModel) :=
  fun w =>
    match w_all_models w !! app_label with
    | Some models => (Ok models, w)
    | None => (Ok ∅, set_all_models (<[app_label := ∅]> (w_all_models w)) w)
    end.

Local Open Scope py_scope.

(* ===================================================================== *)
(** ** dynamic_models/utils.py                                            *)
(* ===================================================================== *)

Module utils.
Section with_collaborators.
Context (env : Collaborators).

  (** [connection.cursor()] hands out a cursor that is open until closed;
      [cursor.close()] closes it. *)
Definition connection_cursor : M world nat :=
    fun w =>
      let cursor := w_next_cursor w in
      (Ok cursor, set_cursors (S cursor) ({[cursor]} ∪ w_open_cursors w) w).

Definition cursor_close (cursor : nat) : M world unit :=
    modify (fun w => set_cursors (w_next_cursor w) (w_open_cursors w ∖ {[cursor]}) w).

Definition _db_cursor : generator world nat :=
    {| before_yield := connection_cursor;
       after_yield := cursor_close |}.

Definition db_table_exists (table_name : string) : M world bool :=
    with_contextmanager _db_cursor (fun c =>
      do names <- query w_database (table_names env c);
      ret (str_in table_name names)).

Definition _get_table_description (table_name : string) : M world (list FieldInfo) :=
    with_contextmanager _db_cursor (fun c =>
      query w_database (get_table_description env c table_name)).

Definition db_table_has_field (table_name field_name : string) : M world bool :=
    do table <- _get_table_description table_name;
    ret (str_in field_name (List.map fi_name table)).

  (** The [for] loop of [db_field_allows_null] with its early [return], and
      the [raise] that follows the loop. *)
Fixpoint allows_null_loop (table_name field_name : string)
      (table_description : list FieldInfo) : M world bool :=
    match table_description with
    | [] =>
        raise (FieldDoesNotExist
                 ("field " ++ field_name ++ " does not exist on table " ++ table_name))
    | field :: rest =>
        if String.eqb (fi_name field) field_name
        then ret (fi_null_ok field)
        else allows_null_loop table_name field_name rest
    end.

Definition db_field_allows_null (table_name field_name : string) : M world bool :=
    do table_description <- _get_table_description table_name;
    allows_null_loop table_name field_name table_description.

End with_collaborators.

Module ModelRegistry.

Record t := { app_label : string }.

Definition __init__ (app_label : string) : t := {| app_label := app_label |}.

Definition is_registered (self : t) (model_name : string) : M world bool :=
    do models <- all_models_getitem (app_label self);
    ret (bool_decide (is_Some (models !! lower model_name))).

Definition get_model (self : t) (model_name : string) : M world (option RuntimeModel) :=
    try_except
      (do m <- apps_get_model (app_label self) model_name; ret (Some m))
      (fun e => match e with LookupError _ => Some (ret None) | _ => None end).

  (** [del apps.all_models[self.app_label][model_name.lower()]] *)
Definition del_registered (self : t) (key : string) : M world unit :=
    do models <- all_models_getitem (app_label self);
    match models !! key with
    | Some _ =>
        modify (fun w =>
          set_all_models (<[app_label self := delete key models]> (w_all_models w)) w)
    | None => raise (KeyError key)
    end.

Definition unregister_model (self : t) (model_name : string) : M world unit :=
    try_except
      (del_registered self (lower model_name))
      (fun e =>
         match e with
         | KeyError _ => Some (raise (LookupError ("'" ++ model_name ++ "' not found.")))
         | _ => None
         end).

End ModelRegistry.
End utils.

(* ===================================================================== *)
(** ** dynamic_models/models.py                                           *)
(* ===================================================================== *)

(** Running a computation on the process-wide state from inside a method,
    whose state also holds the receiver. *)
Definition in_world {T A} (c : M world A) : M (T * world) A :=
  fun s =>
    match c (snd s) with
    | (r, w) => (r, (fst s, w))
    end.

Definition update_self {T} (f : T -> T) : M (T * world) unit :=
  modify (fun s => (f (fst s), snd s)).

Module ModelSchema.

Record t := {
  pk : option nat;
  name : string;
  db_name : string;
  managed : bool;
  db_table_name : option string;
  _registry : utils.ModelRegistry.t;
  _initial_name : string;
  _schema_editor : option ModelSchemaEditor;
}.

Definition row_of (self : t) : ModelRow :=
  {| mr_pk := pk self; mr_name := name self; mr_db_name := db_name self;
     mr_managed := managed self; mr_db_table_name := db_table_name self |}.

Definition set_pk (v : option nat) (self : t) : t :=
  {| pk := v; name := name self; db_name := db_name self; managed := managed self;
     db_table_name := db_table_name self; _registry := _registry self;
     _initial_name := _initial_name self; _schema_editor := _schema_editor self |}.

Definition set_initial_name (v : string) (self : t) : t :=
  {| pk := pk self; name := name self; db_name := db_name self; managed := managed self;
     db_table_name := db_table_name self; _registry := _registry self;
     _initial_name := v; _schema_editor := _schema_editor self |}.

Definition set_schema_editor (v : option ModelSchemaEditor) (self : t) : t :=
  {| pk := pk self; name := name self; db_name := db_name self; managed := managed self;
     db_table_name := db_table_name self; _registry := _registry self;
     _initial_name := _initial_name self; _schema_editor := v |}.

(** Assignments to the stored attributes, as a caller makes them between
    construction and [save]. *)
Definition set_name (v : string) (self : t) : t :=
  {| pk := pk self; name := v; db_name := db_name self; managed := managed self;
     db_table_name := db_table_name self; _registry := _registry self;
     _initial_name := _initial_name self; _schema_editor := _schema_editor self |}.


Definition set_db_table_name (v : option string) (self : t) : t :=
  {| pk := pk self; name := name self; db_name := db_name self; managed := managed self;
     db_table_name := v; _registry := _registry self;
     _initial_name := _initial_name self; _schema_editor := _schema_editor self |}.

Section with_collaborators.
Context (env : Collaborators).

Definition app_label : string := dynamic_models_app_label env.

Definition get_model_name (name : string) : string :=
  remove_char " " (title name).

Definition model_name (self : t) : string := get_model_name (name self).

Definition initial_model_name (self : t) : string := get_model_name (_initial_name self).

Definition get_registered_model (self : t) : M world (option RuntimeModel) :=
  utils.ModelRegistry.get_model (_registry self) (model_name self).

Definition __init__ (row : ModelRow) : M world t :=
  let registry := utils.ModelRegistry.__init__ app_label in
  do initial_model <- utils.ModelRegistry.get_model registry (get_model_name (mr_name row));
  ret {| pk := mr_pk row; name := mr_name row; db_name := mr_db_name row;
         managed := mr_managed row; db_table_name := mr_db_table_name row;
         _registry := registry;
         _initial_name := mr_name row;
         _schema_editor :=
           if mr_managed row
           then Some {| mse_initial_model := initial_model; mse_db_name := mr_db_name row |}
           else None |}.

(** [self._factory.get_model()] and [self._factory.destroy_model()] *)
Definition factory_get (self : t) : M world RuntimeModel :=
  do store <- gets w_store;
  call w_all_models set_all_models (factory_get_model env (row_of self) store).

Definition factory_destroy (self : t) : M world unit :=
  call w_all_models set_all_models (factory_destroy_model env (row_of self)).

Definition as_model (self : t) : M world RuntimeModel := factory_get self.

(** [super().save()] and [super().delete()] *)
Definition super_save : M (t * world) unit :=
  do self <- gets fst;
  do new_pk <- in_world (call w_store set_store (orm_save_model env (row_of self)));
  update_self (set_pk (Some new_pk)).

Definition super_delete : M (t * world) unit :=
  do self <- gets fst;
  run in_world (call w_store set_store (orm_delete_model env (row_of self)));
  update_self (set_pk None).

Definition save : M (t * world) unit :=
  run super_save;
  do self <- gets fst;
  run match _schema_editor self with
      | Some editor =>
          do model <- in_world (factory_get self);
          do editor' <- in_world (call w_database set_database (update_table env editor model));
          update_self (set_schema_editor (Some editor'))
      | None => ret tt
      end;
  update_self (fun self => set_initial_name (name self) self).

Definition delete : M (t * world) unit :=
  do self <- gets fst;
  run match _schema_editor self with
      | Some editor =>
          do model <- in_world (as_model self);
          do editor' <- in_world (call w_database set_database (drop_table env editor model));
          update_self (set_schema_editor (Some editor'))
      | None => ret tt
      end;
  run in_world (factory_destroy self);
  super_delete.

Definition _default_db_table_name (self : t) : string :=
  let safe_name := replace "-" "_" (slugify env (name self)) in
  app_label ++ "_" ++ safe_name.

Definition db_table (self : t) : string :=
  match db_table_name self with
  | Some override => if str_truthy override then override else _default_db_table_name self
  | None => _default_db_table_name self
  end.

End with_collaborators.
End ModelSchema.

Module FieldKwargsJSON.

(** [f.__name__] *)
Definition policy_name (p : on_delete_policy) : string :=
  match p with
  | CASCADE => "CASCADE"
  | PROTECT => "PROTECT"
  | RESTRICT => "RESTRICT"
  | SET_NULL => "SET_NULL"
  | SET_DEFAULT => "SET_DEFAULT"
  | DO_NOTHING => "DO_NOTHING"
  end.

Definition dunder_name (c : callable) : string :=
  match c with
  | Policy p => policy_name p
  | Function n => n
  end.

(** The on-delete behaviours found in the namespace of [django.db.models]. *)
Definition policy_named (attr : string) : option on_delete_policy :=
  if String.eqb attr "CASCADE" then Some CASCADE
  else if String.eqb attr "PROTECT" then Some PROTECT
  else if String.eqb attr "RESTRICT" then Some RESTRICT
  else if String.eqb attr "SET_NULL" then Some SET_NULL
  else if String.eqb attr "SET_DEFAULT" then Some SET_DEFAULT
  else if String.eqb attr "DO_NOTHING" then Some DO_NOTHING
  else None.

Section with_collaborators.
Context (env : Collaborators).

(** [getattr(models, attr)] *)
Definition getattr_models (attr : string) : result pyvalue :=
  match policy_named attr with
  | Some p => Ok (VCallable (Policy p))
  | None =>
      match models_other_attr env attr with
      | Some v => Ok v
      | None => Raise (AttributeError attr)
      end
  end.

(** Both conversions write into the mapping they are given and return it. *)
Definition _convert_on_delete_to_function (raw_value : option (gmap string pyvalue))
    : result (option (gmap string pyvalue)) :=
  match raw_value with
  | None => Ok raw_value
  | Some d =>
      match d !! "on_delete" with
      | None => Ok raw_value
      | Some raw_on_delete =>
          match raw_on_delete with
          | VStr token =>
              match getattr_models token with
              | Ok f => Ok (Some (<["on_delete" := f]> d))
              | Raise e => Raise e
              end
          | _ => Ok raw_value
          end
      end
  end.

Definition _convert_on_delete_to_string (raw_value : option (gmap string pyvalue))
    : option (gmap string pyvalue) :=
  match raw_value with
  | None => raw_value
  | Some d =>
      match d !! "on_delete" with
      | None => raw_value
      | Some raw_on_delete =>
          match raw_on_delete with
          | VCallable f => Some (<["on_delete" := VStr (dunder_name f)]> d)
          | _ => raw_value
          end
      end
  end.

(** [to_python] on an already decoded value: a failed attribute lookup
    becomes a [ValidationError]. *)
Definition to_python (value : option (gmap string pyvalue))
    : result (option (gmap string pyvalue)) :=
  match _convert_on_delete_to_function value with
  | Raise (AttributeError _) => Raise (ValidationError "Invalid value for 'on_delete'")
  | r => r
  end.

Definition from_db_value (value : option (gmap string pyvalue))
    : result (option (gmap string pyvalue)) :=
  _convert_on_delete_to_function value.

Definition get_prep_value (value : option (gmap string pyvalue))
    : option (gmap string pyvalue) :=
  _convert_on_delete_to_string value.

End with_collaborators.
End FieldKwargsJSON.

Module FieldSchema.

Record t := {
  pk : option nat;
  name : string;
  model_schema : ModelSchema.t;
  class_name : string;
  kwargs : gmap string pyvalue;
  _initial_name : string;
  _initial_null : pyvalue;
  _initial_field : option RuntimeField;
  _schema_editor : option FieldSchemaEditor;
}.

Definition _PROHIBITED_NAMES : list string := ["__module__"; "_declared"].

Definition row_of (self : t) : FieldRow :=
  {| fr_pk := pk self; fr_name := name self;
     fr_model_schema_id := ModelSchema.pk (model_schema self);
     fr_class_name := class_name self; fr_kwargs := kwargs self |}.

Definition set_pk (v : option nat) (self : t) : t :=
  {| pk := v; name := name self; model_schema := model_schema self;
     class_name := class_name self; kwargs := kwargs self;
     _initial_name := _initial_name self; _initial_null := _initial_null self;
     _initial_field := _initial_field self; _schema_editor := _schema_editor self |}.

Definition set_name (v : string) (self : t) : t :=
  {| pk := pk self; name := v; model_schema := model_schema self;
     class_name := class_name self; kwargs := kwargs self;
     _initial_name := _initial_name self; _initial_null := _initial_null self;
     _initial_field := _initial_field self; _schema_editor := _schema_editor self |}.

Definition set_kwargs (v : gmap string pyvalue) (self : t) : t :=
  {| pk := pk self; name := name self; model_schema := model_schema self;
     class_name := class_name self; kwargs := v;
     _initial_name := _initial_name self; _initial_null := _initial_null self;
     _initial_field := _initial_field self; _schema_editor := _schema_editor self |}.

Definition set_schema_editor (v : option FieldSchemaEditor) (self : t) : t :=
  {| pk := pk self; name := name self; model_schema := model_schema self;
     class_name := class_name self; kwargs := kwargs self;
     _initial_name := _initial_name self; _initial_null := _initial_null self;
     _initial_field := _initial_field self; _schema_editor := v |}.

Definition set_initial_name (v : string) (self : t) : t :=
  {| pk := pk self; name := name self; model_schema := model_schema self;
     class_name := class_name self; kwargs := kwargs self;
     _initial_name := v; _initial_null := _initial_null self;
     _initial_field := _initial_field self; _schema_editor := _schema_editor self |}.

Definition set_initial_null (v : pyvalue) (self : t) : t :=
  {| pk := pk self; name := name self; model_schema := model_schema self;
     class_name := class_name self; kwargs := kwargs self;
     _initial_name := _initial_name self; _initial_null := v;
     _initial_field := _initial_field self; _schema_editor := _schema_editor self |}.

Definition set_initial_field (v : option RuntimeField) (self : t) : t :=
  {| pk := pk self; name := name self; model_schema := model_schema self;
     class_name := class_name self; kwargs := kwargs self;
     _initial_name := _initial_name self; _initial_null := _initial_null self;
     _initial_field := v; _schema_editor := _schema_editor self |}.

Definition get_prohibited_names : list string := _PROHIBITED_NAMES.

(** The [null] property and its setter. *)
Definition null (self : t) : pyvalue :=
  default (VBool false) (kwargs self !! "null").

Definition null_setter (value : pyvalue) (self : t) : t :=
  set_kwargs (<["null" := value]> (kwargs self)) self.

Definition get_options (self : t) : gmap string pyvalue := kwargs self.

Definition validate : M (t * world) unit :=
  do self <- gets fst;
  if truthy (_initial_null self) && negb (truthy (null self))
  then raise (NullFieldChangedError
                ("Cannot change NULL field '" ++ name self ++ "' to NOT NULL"))
  else if str_in (name self) get_prohibited_names
  then raise (InvalidFieldNameError (name self ++ " is not a valid field name"))
  else ret tt.

Section with_collaborators.
Context (env : Collaborators).

Definition db_column (self : t) : string :=
  replace "-" "_" (slugify env (name self)).

Definition get_registered_model_field (self : t) : M world (option RuntimeField) :=
  do latest_model <- ModelSchema.get_registered_model (model_schema self);
  match latest_model with
  | Some model =>
      if str_truthy (name self)
      then try_except
             (do field <- meta_get_field model (name self); ret (Some field))
             (fun e => match e with FieldDoesNotExist _ => Some (ret None) | _ => None end)
      else ret None
  | None => ret None
  end.

(** Construction with the owner at hand, as an instance, and the options as
    a mapping.  [super().__init__] stores the column values; the remaining
    attributes are assigned one after the other, each reading the object
    built so far. *)
Definition __init__ (row_pk : option nat) (row_name : string) (owner : ModelSchema.t)
    (row_class_name : string) (row_kwargs : gmap string pyvalue) : M world t :=
  let self := {| pk := row_pk; name := row_name; model_schema := owner;
                 class_name := row_class_name; kwargs := row_kwargs;
                 _initial_name := ""; _initial_null := VNone;
                 _initial_field := None; _schema_editor := None |} in
  let self := set_initial_name (name self) self in
  let self := set_initial_null (null self) self in
  do initial_field <- get_registered_model_field self;
  let self := set_initial_field initial_field self in
  ret (set_schema_editor
         (if ModelSchema.managed (model_schema self)
          then Some {| fse_initial_field := _initial_field self;
                       fse_db_name := ModelSchema.db_name (model_schema self) |}
          else None)
         self).

(** Construction when the owner may not have been given: the first read of
    [self.model_schema] then raises the [RelatedObjectDoesNotExist] of
    Django's descriptor, before anything is looked up.  (An owner known by
    its id alone, which the descriptor loads with a query, is not
    covered.) *)
Definition construct (row_pk : option nat) (row_name : string)
    (owner : option ModelSchema.t) (row_class_name : string)
    (row_kwargs : gmap string pyvalue) : M world t :=
  match owner with
  | Some related => __init__ row_pk row_name related row_class_name row_kwargs
  | None => raise (ExternalError "FieldSchema has no model_schema.")
  end.

Definition _get_model_with_field (self : t) : M world (RuntimeModel * option RuntimeField) :=
  do model <- ModelSchema.as_model env (model_schema self);
  do field <- try_except
                (do f <- meta_get_field model (db_column self); ret (Some f))
                (fun e => match e with FieldDoesNotExist _ => Some (ret None) | _ => None end);
  ret (model, field).

(** [super().save()]: the ORM prepares the column values, which runs
    [FieldKwargsJSON.get_prep_value] on the very mapping held in
    [self.kwargs], and then writes the row. *)
Definition super_save : M (t * world) unit :=
  run update_self (fun self =>
        match FieldKwargsJSON.get_prep_value (Some (kwargs self)) with
        | Some prepared => set_kwargs prepared self
        | None => self
        end);
  do self <- gets fst;
  do new_pk <- in_world (call w_store set_store (orm_save_field env (row_of self)));
  update_self (set_pk (Some new_pk)).

Definition super_delete : M (t * world) unit :=
  do self <- gets fst;
  run in_world (call w_store set_store (orm_delete_field env (row_of self)));
  update_self (set_pk None).

Definition save : M (t * world) unit :=
  run validate;
  run super_save;
  do self <- gets fst;
  do mf <- in_world (_get_model_with_field self);
  match _schema_editor self with
  | Some editor =>
      do editor' <- in_world (call w_database set_database
                                (update_column env editor (fst mf) (snd mf)));
      update_self (set_schema_editor (Some editor'))
  | None => ret tt
  end.

Definition delete : M (t * world) unit :=
  do self <- gets fst;
  do mf <- in_world (_get_model_with_field self);
  run match _schema_editor self with
      | Some editor =>
          do editor' <- in_world (call w_database set_database
                                    (drop_column env editor (fst mf) (snd mf)));
          update_self (set_schema_editor (Some editor'))
      | None => ret tt
      end;
  super_delete.

End with_collaborators.
End FieldSchema.

(* ===================================================================== *)
(** ** The derived names in the words of the design document              *)
(* ===================================================================== *)

(** The slug of a name: [slugify] with hyphens turned into underscores. *)
Definition slugified (env : Collaborators) (name : string) : string :=
  replace "-" "_" (slugify env name).

(** "override or {namespace}_{slugified name}" *)
Definition physical_table_name (override : option string)
    (namespace slugified_name : string) : string :=
  match override with
  | Some table => table
  | None => namespace ++ "_" ++ slugified_name
  end.

(** The override, when one is set. *)
Definition explicit_override (self : ModelSchema.t) : option string :=
  match ModelSchema.db_table_name self with
  | Some override => if str_truthy override then Some override else None
  | None => None
  end.

(* ===================================================================== *)
(** ** Vocabulary of the properties                                       *)
(* ===================================================================== *)

(** The state in which the body of [with _db_cursor() as c] runs. *)
Definition cursor_handed_out (w : world) : world :=
  set_cursors (S (w_next_cursor w)) ({[w_next_cursor w]} ∪ w_open_cursors w) w.

(** The state after the cursor handed out in [w] has been closed. *)
Definition cursor_returned (w : world) : world :=
  set_cursors (S (w_next_cursor w))
              (({[w_next_cursor w]} ∪ w_open_cursors w) ∖ {[w_next_cursor w]}) w.

(** The test of the null-narrowing guard: the null state remembered at
    construction is true and the current one is not. *)
Definition null_narrowed (self : FieldSchema.t) : bool :=
  truthy (FieldSchema._initial_null self) && negb (truthy (FieldSchema.null self)).

(** Started in a state where [P] holds, the computation [c] ends, by return
    or by exception, in a state where [Q] holds, and raises only exceptions
    in [E]. *)
Definition hoare {St A} (P : St → Prop) (c : M St A) (Q : St → Prop) (E : exn → Prop)
    : Prop :=
  ∀ s, P s → Q (snd (c s)) ∧ match fst (c s) with Ok _ => True | Raise e => E e end.

Definition keeps {St A} (P : St → Prop) (E : exn → Prop) (c : M St A) : Prop :=
  hoare P c P E.

(** The collaborator [f] fails only in ways that [E] allows. *)
Definition fails_within {P A} (E : exn → Prop) (f : P → ext A * P) : Prop :=
  ∀ p, match fst (f p) with inr what => E (ExternalError what) | inl _ => True end.

Definition external (e : exn) : Prop :=
  match e with ExternalError _ => True | _ => False end.

(** The collaborators that [FieldSchema.save] calls do not fail. *)
Definition field_save_never_fails (env : Collaborators) : Prop :=
  (∀ row, fails_within (fun _ => False) (orm_save_field env row))
  ∧ (∀ row store, fails_within (fun _ => False) (factory_get_model env row store))
  ∧ (∀ editor model field,
       fails_within (fun _ => False) (update_column env editor model field)).

(** The "null" option of the stored definition [pk]. *)
Definition stored_null (w : world) (pk : nat) : option pyvalue :=
  match st_fields (w_store w) !! pk with
  | Some row => fr_kwargs row !! "null"
  | None => None
  end.

(** The class registered under [key] in the namespace [app_label]. *)
Definition registered_class (w : world) (app_label key : string) : option RuntimeModel :=
  match w_all_models w !! app_label with
  | Some models => models !! key
  | None => None
  end.

(** The instance as [super().save()] leaves its options: [get_prep_value]
    has been applied to them. *)
Definition prepared_for_save (self : FieldSchema.t) : FieldSchema.t :=
  match FieldKwargsJSON.get_prep_value (Some (FieldSchema.kwargs self)) with
  | Some prepared => FieldSchema.set_kwargs prepared self
  | None => self
  end.

(** The field of a class with a given name, if any. *)
Definition field_named (model : RuntimeModel) (name : string) : option RuntimeField :=
  List.find (fun f => String.eqb (rf_name f) name) (rm_fields model).

(** The characters of a string. *)
Definition chars (s : string) : list ascii := list_ascii_of_string s.

(** An outcome that is a return or an exception of a collaborator. *)
Definition raises_nothing_of_its_own {A} (r : result A) : Prop :=
  match r with
  | Ok _ => True
  | Raise (ExternalError _) => True
  | Raise _ => False
  end.

(* ===================================================================== *)
(** ** A reference set of collaborators                                   *)
(* ===================================================================== *)

(** Simple stand-ins for Django and for the factory and schema modules, on
    which the definitions above run on concrete inputs. *)
Module reference.

Definition is_digit (c : ascii) : bool :=
  let n := nat_of_ascii c in (48 <=? n)%nat && (n <=? 57)%nat.

Definition is_space (c : ascii) : bool :=
  let n := nat_of_ascii c in ((9 <=? n)%nat && (n <=? 13)%nat) || (n =? 32)%nat.

Definition is_hyphen (c : ascii) : bool := Ascii.eqb c "-".

Definition is_word (c : ascii) : bool :=
  is_lower c || is_upper c || is_digit c || Ascii.eqb c "_".

Fixpoint keep (p : ascii -> bool) (s : string) : string :=
  match s with
  | EmptyString => EmptyString
  | String c s' => if p c then String c (keep p s') else keep p s'
  end.

Fixpoint squeeze (in_run : bool) (s : string) : string :=
  match s with
  | EmptyString => EmptyString
  | String c s' =>
      if is_space c || is_hyphen c
      then if in_run then squeeze true s' else String "-" (squeeze true s')
      else String c (squeeze false s')
  end.

Fixpoint lstrip (p : ascii -> bool) (s : string) : string :=
  match s with
  | EmptyString => EmptyString
  | String c s' => if p c then lstrip p s' else s
  end.

Fixpoint rev_onto (s acc : string) : string :=
  match s with
  | EmptyString => acc
  | String c s' => rev_onto s' (String c acc)
  end.

Definition strip (p : ascii -> bool) (s : string) : string :=
  rev_onto (lstrip p (rev_onto (lstrip p s) "")) "".

(** [slugify] on ASCII text: lower-case, drop what is neither a word
    character, white space nor a hyphen, turn each run of white space and
    hyphens into one hyphen, strip hyphens and underscores at both ends. *)
Definition ascii_slugify (s : string) : string :=
  strip (fun c => is_hyphen c || Ascii.eqb c "_")
        (squeeze false (keep (fun c => is_word c || is_space c || is_hyphen c) (lower s))).

Definition next_pk {A} (rows : gmap nat A) : nat :=
  S (map_fold (fun k _ acc => Nat.max k acc) 0%nat rows).

Definition save_model (row : ModelRow) (store : Store) : ext nat * Store :=
  let k := match mr_pk row with Some k => k | None => next_pk (st_models store) end in
  (inl k,
   {| st_models := <[k := {| mr_pk := Some k; mr_name := mr_name row;
                             mr_db_name := mr_db_name row; mr_managed := mr_managed row;
                             mr_db_table_name := mr_db_table_name row |}]> (st_models store);
      st_fields := st_fields store |}).

Definition delete_model (row : ModelRow) (store : Store) : ext unit * Store :=
  match mr_pk row with
  | Some k =>
      (inl tt,
       {| st_models := delete k (st_models store);
          st_fields := filter (fun kv => fr_model_schema_id (snd kv) ≠ Some k)
                              (st_fields store) |})
  | None => (inr "object can't be deleted because its primary key is None", store)
  end.

Definition save_field (row : FieldRow) (store : Store) : ext nat * Store :=
  let k := match fr_pk row with Some k => k | None => next_pk (st_fields store) end in
  (inl k,
   {| st_models := st_models store;
      st_fields := <[k := {| fr_pk := Some k; fr_name := fr_name row;
                             fr_model_schema_id := fr_model_schema_id row;
                             fr_class_name := fr_class_name row;
                             fr_kwargs := fr_kwargs row |}]> (st_fields store) |}).

Definition delete_field (row : FieldRow) (store : Store) : ext unit * Store :=
  match fr_pk row with
  | Some k =>
      (inl tt, {| st_models := st_models store; st_fields := delete k (st_fields store) |})
  | None => (inr "object can't be deleted because its primary key is None", store)
  end.

Definition label : string := "dynamic_models".

Definition column_of (row : FieldRow) : string := replace "-" "_" (ascii_slugify (fr_name row)).

(** The factory builds the descriptor from the stored field definitions of
    the model and registers it. *)
Definition get_model (row : ModelRow) (store : Store)
    (all_models : gmap string (gmap string RuntimeModel))
    : ext RuntimeModel * gmap string (gmap string RuntimeModel) :=
  let class_name := ModelSchema.get_model_name (mr_name row) in
  let rows := filter (fun r => fr_model_schema_id r = mr_pk row)
                     (snd <$> map_to_list (st_fields store)) in
  let model :=
    {| rm_name := class_name;
       rm_fields := (fun r => {| rf_name := column_of r;
                                 rf_null := truthy (default (VBool false) (fr_kwargs r !! "null")) |})
                    <$> rows |} in
  (inl model,
   <[label := <[lower class_name := model]> (default ∅ (all_models !! label))]> all_models).

Definition destroy_model (row : ModelRow)
    (all_models : gmap string (gmap string RuntimeModel))
    : ext unit * gmap string (gmap string RuntimeModel) :=
  (inl tt,
   <[label := delete (lower (ModelSchema.get_model_name (mr_name row)))
                     (default ∅ (all_models !! label))]> all_models).

Definition execute (statement : string) (db : database) : database :=
  {| db_tables := db_tables db; db_ddl := db_ddl db ++ [statement] |}.

Definition nullability (field : option RuntimeField) : string :=
  match field with
  | Some f => rf_name f ++ (if rf_null f then " NULL" else " NOT NULL")
  | None => "?"
  end.

Definition collaborators : Collaborators :=
  {| slugify := ascii_slugify;
     models_other_attr := fun _ => None;
     table_names := fun _ db => inl (fst <$> map_to_list (db_tables db));
     get_table_description := fun _ table db =>
       match db_tables db !! table with
       | Some columns => inl columns
       | None => inr ("no such table: " ++ table)
       end;
     orm_save_model := save_model;
     orm_delete_model := delete_model;
     orm_save_field := save_field;
     orm_delete_field := delete_field;
     dynamic_models_app_label := label;
     factory_get_model := get_model;
     factory_destroy_model := destroy_model;
     update_table := fun editor model db =>
       (inl {| mse_initial_model := Some model; mse_db_name := mse_db_name editor |},
        execute ("CREATE OR ALTER TABLE " ++ rm_name model) db);
     drop_table := fun editor model db =>
       (inl editor, execute ("DROP TABLE " ++ rm_name model) db);
     update_column := fun editor model field db =>
       (inl {| fse_initial_field := field; fse_db_name := fse_db_name editor |},
        execute ("ALTER TABLE " ++ rm_name model ++ " ADD OR ALTER COLUMN "
                 ++ nullability field) db);
     drop_column := fun editor model field db =>
       (inl editor,
        execute ("ALTER TABLE " ++ rm_name model ++ " DROP COLUMN " ++ nullability field) db);
  |}.

(** The same collaborators on a storage engine that refuses DDL, and on
    definition tables that refuse writes. *)
Definition without_ddl_rights : Collaborators :=
  {| slugify := slugify collaborators;
     models_other_attr := models_other_attr collaborators;
     table_names := table_names collaborators;
     get_table_description := get_table_description collaborators;
     orm_save_model := orm_save_model collaborators;
     orm_delete_model := orm_delete_model collaborators;
     orm_save_field := orm_save_field collaborators;
     orm_delete_field := orm_delete_field collaborators;
     dynamic_models_app_label := dynamic_models_app_label collaborators;
     factory_get_model := factory_get_model collaborators;
     factory_destroy_model := factory_destroy_model collaborators;
     update_table := fun _ _ db => (inr "permission denied", db);
     drop_table := fun _ _ db => (inr "permission denied", db);
     update_column := fun _ _ _ db => (inr "permission denied", db);
     drop_column := fun _ _ _ db => (inr "permission denied", db) |}.

Definition with_read_only_store : Collaborators :=
  {| slugify := slugify collaborators;
     models_other_attr := models_other_attr collaborators;
     table_names := table_names collaborators;
     get_table_description := get_table_description collaborators;
     orm_save_model := fun _ store => (inr "attempt to write a readonly database", store);
     orm_delete_model := fun _ store => (inr "attempt to write a readonly database", store);
     orm_save_field := fun _ store => (inr "attempt to write a readonly database", store);
     orm_delete_field := fun _ store => (inr "attempt to write a readonly database", store);
     dynamic_models_app_label := dynamic_models_app_label collaborators;
     factory_get_model := factory_get_model collaborators;
     factory_destroy_model := factory_destroy_model collaborators;
     update_table := update_table collaborators;
     drop_table := drop_table collaborators;
     update_column := update_column collaborators;
     drop_column := drop_column collaborators |}.

(** Sample objects. *)
Definition customer : ModelSchema.t :=
  {| ModelSchema.pk := Some 1%nat; ModelSchema.name := "Customer";
     ModelSchema.db_name := "default"; ModelSchema.managed := true;
     ModelSchema.db_table_name := None;
     ModelSchema._registry := utils.ModelRegistry.__init__ label;
     ModelSchema._initial_name := "Customer";
     ModelSchema._schema_editor :=
       Some {| mse_initial_model := None; mse_db_name := "default" |} |}.


Definition text_options : gmap string pyvalue := {[ "max_length" := VInt 255 ]}.

Definition relation_options : gmap string pyvalue :=
  <["on_delete" := VCallable (Policy CASCADE)]> {[ "to" := VStr "auth.User" ]}.

Definition email : FieldSchema.t :=
  {| FieldSchema.pk := None; FieldSchema.name := "email";
     FieldSchema.model_schema := customer;
     FieldSchema.class_name := "django.db.models.TextField";
     FieldSchema.kwargs := text_options;
     FieldSchema._initial_name := "email";
     FieldSchema._initial_null := VBool false;
     FieldSchema._initial_field := None;
     FieldSchema._schema_editor :=
       Some {| fse_initial_field := None; fse_db_name := "default" |} |}.

Definition not_null_options : gmap string pyvalue := {[ "null" := VBool false ]}.

(** The options of a relation as they are stored, and options whose
    behaviour is the closure returned by [models.SET]. *)
Definition stored_relation_options : gmap string pyvalue :=
  <["on_delete" := VStr "CASCADE"]> {[ "to" := VStr "auth.User" ]}.

Definition set_options : gmap string pyvalue :=
  <["on_delete" := VCallable (Function "set_on_delete")]> {[ "to" := VStr "auth.User" ]}.

(** A definition named "_declared", as built, and the same built with
    null=True and then set to null=False. *)
Definition declared : FieldSchema.t :=
  {| FieldSchema.pk := None; FieldSchema.name := "_declared";
     FieldSchema.model_schema := customer;
     FieldSchema.class_name := "django.db.models.TextField";
     FieldSchema.kwargs := text_options;
     FieldSchema._initial_name := "_declared";
     FieldSchema._initial_null := VBool false;
     FieldSchema._initial_field := None;
     FieldSchema._schema_editor :=
       Some {| fse_initial_field := None; fse_db_name := "default" |} |}.

Definition declared_narrowed : FieldSchema.t :=
  FieldSchema.null_setter (VBool false)
    {| FieldSchema.pk := None; FieldSchema.name := "_declared";
       FieldSchema.model_schema := customer;
       FieldSchema.class_name := "django.db.models.TextField";
       FieldSchema.kwargs := {[ "null" := VBool true ]};
       FieldSchema._initial_name := "_declared";
       FieldSchema._initial_null := VBool true;
       FieldSchema._initial_field := None;
       FieldSchema._schema_editor :=
         Some {| fse_initial_field := None; fse_db_name := "default" |} |}.


Definition customer_row : ModelRow :=
  {| mr_pk := None; mr_name := "Customer"; mr_db_name := "default";
     mr_managed := true; mr_db_table_name := None |}.

Definition customer_class : RuntimeModel :=
  {| rm_name := "Customer"; rm_fields := [{| rf_name := "email"; rf_null := true |}] |}.

(** A process in which the class of "Customer" is registered and its table
    exists. *)
Definition crm_world : world :=
  {| w_next_cursor := 0; w_open_cursors := ∅;
     w_all_models := {[ label := {[ "customer" := customer_class ]} ]};
     w_store := {| st_models := ∅; st_fields := ∅ |};
     w_database :=
       {| db_tables := {[ "dynamic_models_customer" :=
                            [ {| fi_name := "id"; fi_null_ok := false |};
                              {| fi_name := "email"; fi_null_ok := true |} ] ]};
          db_ddl := [] |} |}.

Definition empty_world : world :=
  {| w_next_cursor := 0; w_open_cursors := ∅; w_all_models := ∅;
     w_store := {| st_models := ∅; st_fields := ∅ |};
     w_database := {| db_tables := ∅; db_ddl := [] |} |}.

End reference.

(* ===================================================================== *)
(** ** Properties of utils.py                                             *)
(* ===================================================================== *)

Section utils_facts.
Context (env : Collaborators).

Lemma _get_table_description_returns table w columns :
  get_table_description env (w_next_cursor w) table (w_database w) = inl columns →
  utils._get_table_description env table w = (Ok columns, cursor_returned w).
Proof.
  intros Hdesc.
  unfold utils._get_table_description, with_contextmanager, query; simpl.
  rewrite Hdesc. reflexivity.
Qed.

Lemma _get_table_description_raises table w what :
  get_table_description env (w_next_cursor w) table (w_database w) = inr what →
  utils._get_table_description env table w
  = (Raise (ExternalError what), cursor_handed_out w).
Proof.
  intros Hdesc.
  unfold utils._get_table_description, with_contextmanager, query; simpl.
  rewrite Hdesc. reflexivity.
Qed.

Lemma db_table_exists_raises table w what :
  table_names env (w_next_cursor w) (w_database w) = inr what →
  utils.db_table_exists env table w = (Raise (ExternalError what), cursor_handed_out w).
Proof.
  intros Hnames.
  unfold utils.db_table_exists, with_contextmanager, bind, query; simpl.
  rewrite Hnames. reflexivity.
Qed.

Lemma db_table_exists_returns table w names :
  table_names env (w_next_cursor w) (w_database w) = inl names →
  utils.db_table_exists env table w = (Ok (str_in table names), cursor_returned w).
Proof.
  intros Hnames.
  unfold utils.db_table_exists, with_contextmanager, bind, query; simpl.
  rewrite Hnames. reflexivity.
Qed.

Lemma cursor_returned_closed w : w_next_cursor w ∉ w_open_cursors (cursor_returned w).
Proof.
  simpl. intros [_ Hout]%elem_of_difference.
  apply Hout. by apply elem_of_singleton.
Qed.

Lemma cursor_handed_out_open w : w_next_cursor w ∈ w_open_cursors (cursor_handed_out w).
Proof. simpl. apply elem_of_union_l. by apply elem_of_singleton. Qed.

(** On the exit by [return] the cursor is closed. *)
Lemma _get_table_description_closes_on_return table w columns :
  get_table_description env (w_next_cursor w) table (w_database w) = inl columns →
  w_next_cursor w ∉ w_open_cursors (snd (utils._get_table_description env table w)).
Proof.
  intros Hdesc. rewrite (_get_table_description_returns _ _ _ Hdesc).
  apply cursor_returned_closed.
Qed.

Lemma allows_null_loop_found table field columns w column :
  List.find (fun c => String.eqb (fi_name c) field) columns = Some column →
  utils.allows_null_loop table field columns w = (Ok (fi_null_ok column), w).
Proof.
  induction columns as [|c rest IH]; simpl; [discriminate|].
  destruct (String.eqb (fi_name c) field); [|exact IH].
  intros [= ->]. reflexivity.
Qed.

Lemma allows_null_loop_missing table field columns w :
  List.find (fun c => String.eqb (fi_name c) field) columns = None →
  utils.allows_null_loop table field columns w
  = (Raise (FieldDoesNotExist ("field " ++ field ++ " does not exist on table " ++ table)), w).
Proof.
  induction columns as [|c rest IH]; simpl; [reflexivity|].
  destruct (String.eqb (fi_name c) field); [discriminate|exact IH].
Qed.

Lemma find_column_present field columns :
  (∃ column, In column columns ∧ fi_name column = field) →
  ∃ column, List.find (fun c => String.eqb (fi_name c) field) columns = Some column
            ∧ In column columns ∧ fi_name column = field.
Proof.
  intros (c0 & Hin & Hname).
  destruct (List.find (fun c => String.eqb (fi_name c) field) columns) as [c|] eqn:Hfind.
  - exists c. apply List.find_some in Hfind as [Hc Heq].
    apply String.eqb_eq in Heq. auto.
  - exfalso. pose proof (List.find_none _ _ Hfind _ Hin) as Hneq. simpl in Hneq.
    rewrite Hname, String.eqb_refl in Hneq. discriminate.
Qed.

Lemma find_column_absent field columns :
  (∀ column, In column columns → fi_name column ≠ field) →
  List.find (fun c => String.eqb (fi_name c) field) columns = None.
Proof.
  intros Habsent.
  destruct (List.find (fun c => String.eqb (fi_name c) field) columns) as [c|] eqn:Hfind;
    [|reflexivity].
  apply List.find_some in Hfind as [Hc Heq]. apply String.eqb_eq in Heq.
  exfalso. exact (Habsent c Hc Heq).
Qed.

End utils_facts.

(** C2, as the code behaves: when the introspection call raises inside
    [with _db_cursor() as c], the exception leaves [_get_table_description]
    (and with it the column description and the nullability check), and
    likewise [db_table_exists], while the cursor that was handed out is
    still open: [cursor.close()] is not reached. *)
Theorem C2_cursor_left_open_when_introspection_raises
    (env : Collaborators) (table : string) (w : world) (what : string) :
  get_table_description env (w_next_cursor w) table (w_database w) = inr what →
  (fst (utils._get_table_description env table w) = Raise (ExternalError what)
   ∧ w_next_cursor w ∈ w_open_cursors (snd (utils._get_table_description env table w)))
  ∧ (∀ field,
       fst (utils.db_field_allows_null env table field w) = Raise (ExternalError what)
       ∧ w_next_cursor w ∈ w_open_cursors (snd (utils.db_field_allows_null env table field w)))
  ∧ (∀ field,
       fst (utils.db_table_has_field env table field w) = Raise (ExternalError what)
       ∧ w_next_cursor w ∈ w_open_cursors (snd (utils.db_table_has_field env table field w)))
  ∧ (∀ why,
       table_names env (w_next_cursor w) (w_database w) = inr why →
       fst (utils.db_table_exists env table w) = Raise (ExternalError why)
       ∧ w_next_cursor w ∈ w_open_cursors (snd (utils.db_table_exists env table w))).
Proof.
  intros Hdesc.
  pose proof (_get_table_description_raises env _ _ _ Hdesc) as Hraise.
  split; [|split; [|split]]; cycle 3.
  { intros why Hnames. rewrite (db_table_exists_raises env _ _ _ Hnames).
    split; [reflexivity|apply cursor_handed_out_open]. }
  - rewrite Hraise. split; [reflexivity|apply cursor_handed_out_open].
  - intros field. unfold utils.db_field_allows_null, bind. rewrite Hraise.
    split; [reflexivity|apply cursor_handed_out_open].
  - intros field. unfold utils.db_table_has_field, bind. rewrite Hraise.
    split; [reflexivity|apply cursor_handed_out_open].
Qed.

Lemma C2_cursor_left_open_witness :
  get_table_description reference.collaborators
    (w_next_cursor reference.empty_world) "missing" (w_database reference.empty_world)
  = inr "no such table: missing"
  ∧ fst (utils._get_table_description reference.collaborators "missing" reference.empty_world)
    = Raise (ExternalError "no such table: missing")
  ∧ 0 ∈ w_open_cursors
          (snd (utils._get_table_description reference.collaborators "missing"
                  reference.empty_world)).
Proof.
  split; [reflexivity|].
  exact (proj1 (C2_cursor_left_open_when_introspection_raises
                  reference.collaborators "missing" reference.empty_world
                  "no such table: missing" eq_refl)).
Defined.

(** C7: once the table description has been obtained,
    [db_field_allows_null] returns the [null_ok] flag of the column of that
    name when the description has one, and raises [FieldDoesNotExist] (the
    not-found error) when it has none. *)
Theorem C7_db_field_allows_null
    (env : Collaborators) (table field : string) (w : world) (columns : list FieldInfo) :
  get_table_description env (w_next_cursor w) table (w_database w) = inl columns →
  ((∃ column, In column columns ∧ fi_name column = field) →
     ∃ column,
       List.find (fun c => String.eqb (fi_name c) field) columns = Some column
       ∧ In column columns ∧ fi_name column = field
       ∧ fst (utils.db_field_allows_null env table field w) = Ok (fi_null_ok column))
  ∧ ((∀ column, In column columns → fi_name column ≠ field) →
     fst (utils.db_field_allows_null env table field w)
     = Raise (FieldDoesNotExist
                ("field " ++ field ++ " does not exist on table " ++ table))).
Proof.
  intros Hdesc.
  pose proof (_get_table_description_returns env _ _ _ Hdesc) as Hret.
  split.
  - intros Hpresent.
    destruct (find_column_present _ _ Hpresent) as (column & Hfind & Hin & Hname).
    exists column. repeat split; try assumption.
    unfold utils.db_field_allows_null, bind. rewrite Hret.
    rewrite (allows_null_loop_found _ _ _ _ _ Hfind). reflexivity.
  - intros Habsent. apply find_column_absent in Habsent.
    unfold utils.db_field_allows_null, bind. rewrite Hret.
    rewrite (allows_null_loop_missing _ _ _ _ Habsent). reflexivity.
Qed.

Lemma C7_db_field_allows_null_witness :
  get_table_description reference.collaborators (w_next_cursor reference.crm_world)
    "dynamic_models_customer" (w_database reference.crm_world)
  = inl [ {| fi_name := "id"; fi_null_ok := false |};
          {| fi_name := "email"; fi_null_ok := true |} ]
  ∧ fst (utils.db_field_allows_null reference.collaborators
           "dynamic_models_customer" "phone" reference.crm_world)
    = Raise (FieldDoesNotExist
               "field phone does not exist on table dynamic_models_customer")
  ∧ ∃ column,
      fi_name column = "email"
      ∧ fst (utils.db_field_allows_null reference.collaborators
               "dynamic_models_customer" "email" reference.crm_world)
        = Ok (fi_null_ok column).
Proof.
  split; [reflexivity|].
  split.
  - apply (C7_db_field_allows_null reference.collaborators "dynamic_models_customer"
             "phone" reference.crm_world _ eq_refl).
    intros column [<-|[<-|[]]]; discriminate.
  - destruct (proj1 (C7_db_field_allows_null reference.collaborators
                       "dynamic_models_customer" "email" reference.crm_world _ eq_refl))
      as (column & _ & _ & Hname & Hresult).
    + exists {| fi_name := "email"; fi_null_ok := true |}.
      split; [right; left; reflexivity|reflexivity].
    + exists column. split; assumption.
Defined.

(** C8: [unregister_model] deletes the entry stored under the lower-cased
    name from the mapping of the registry's namespace when there is one,
    and raises [LookupError] (the not-found error) when there is none. *)
Theorem C8_unregister_model
    (self : utils.ModelRegistry.t) (model_name : string) (w : world) :
  (∀ models model,
     w_all_models w !! utils.ModelRegistry.app_label self = Some models →
     models !! lower model_name = Some model →
     utils.ModelRegistry.unregister_model self model_name w
     = (Ok tt,
        set_all_models
          (<[utils.ModelRegistry.app_label self := delete (lower model_name) models]>
             (w_all_models w)) w))
  ∧ ((∀ models,
        w_all_models w !! utils.ModelRegistry.app_label self = Some models →
        models !! lower model_name = None) →
     fst (utils.ModelRegistry.unregister_model self model_name w)
     = Raise (LookupError ("'" ++ model_name ++ "' not found."))).
Proof.
  split.
  - intros models model Hlabel Hmodel.
    unfold utils.ModelRegistry.unregister_model, utils.ModelRegistry.del_registered,
      try_except, bind, all_models_getitem.
    rewrite Hlabel, Hmodel. reflexivity.
  - intros Habsent.
    unfold utils.ModelRegistry.unregister_model, utils.ModelRegistry.del_registered,
      try_except, bind, all_models_getitem.
    destruct (w_all_models w !! utils.ModelRegistry.app_label self) as [models|] eqn:Hlabel.
    + rewrite (Habsent models eq_refl). reflexivity.
    + rewrite lookup_empty. reflexivity.
Qed.

Lemma C8_unregister_model_witness :
  utils.ModelRegistry.unregister_model
    (utils.ModelRegistry.__init__ reference.label) "Customer" reference.crm_world
  = (Ok tt,
     set_all_models
       (<[reference.label := delete "customer" {[ "customer" := reference.customer_class ]}]>
          (w_all_models reference.crm_world)) reference.crm_world)
  ∧ fst (utils.ModelRegistry.unregister_model
           (utils.ModelRegistry.__init__ reference.label) "Order" reference.crm_world)
    = Raise (LookupError "'Order' not found.").
Proof.
  destruct (C8_unregister_model (utils.ModelRegistry.__init__ reference.label)
              "Customer" reference.crm_world) as [Hregistered _].
  destruct (C8_unregister_model (utils.ModelRegistry.__init__ reference.label)
              "Order" reference.crm_world) as [_ Habsent].
  split.
  - exact (Hregistered {[ "customer" := reference.customer_class ]}
             reference.customer_class eq_refl eq_refl).
  - apply Habsent. intros models Hmodels.
    vm_compute in Hmodels. injection Hmodels as <-. reflexivity.
Defined.

(* ===================================================================== *)
(** ** Properties of models.py                                            *)
(* ===================================================================== *)

(** *** Derived names *)

(** C5: the table name of a model definition is the override when one is
    set (a non-empty string; Python takes the empty string for unset, as it
    does [None]) and otherwise the namespace, an underscore and the slug of
    the name; the column name of a field definition is the slug of its
    name.  The slug is [slugify] with its hyphens turned into
    underscores. *)
Theorem C5_physical_names (env : Collaborators) :
  (∀ self, ModelSchema.db_table env self
           = physical_table_name (explicit_override self)
               (ModelSchema.app_label env) (slugified env (ModelSchema.name self)))
  ∧ (∀ self override,
       ModelSchema.db_table_name self = Some override → override ≠ "" →
       ModelSchema.db_table env self = override)
  ∧ (∀ self,
       ModelSchema.db_table_name self = None ∨ ModelSchema.db_table_name self = Some "" →
       ModelSchema.db_table env self
       = ModelSchema.app_label env ++ "_" ++ slugified env (ModelSchema.name self))
  ∧ (∀ self, FieldSchema.db_column env self = slugified env (FieldSchema.name self)).
Proof.
  split; [|split; [|split]].
  - intros self.
    unfold ModelSchema.db_table, explicit_override, physical_table_name,
      ModelSchema._default_db_table_name, slugified.
    destruct (ModelSchema.db_table_name self) as [override|]; [|reflexivity].
    destruct (str_truthy override); reflexivity.
  - intros self override Hset Hnonempty.
    unfold ModelSchema.db_table. rewrite Hset.
    unfold str_truthy. apply String.eqb_neq in Hnonempty. rewrite Hnonempty. reflexivity.
  - intros self [Hunset|Hempty]; unfold ModelSchema.db_table.
    + rewrite Hunset. reflexivity.
    + rewrite Hempty. reflexivity.
  - intros self. reflexivity.
Qed.

Lemma C5_physical_names_witness :
  ModelSchema.db_table reference.collaborators reference.customer = "dynamic_models_customer"
  ∧ ModelSchema.db_table reference.collaborators
      (ModelSchema.set_db_table_name (Some "crm_clients") reference.customer)
    = "crm_clients"
  ∧ ModelSchema.db_table reference.collaborators
      (ModelSchema.set_name "Old Name" reference.customer)
    = "dynamic_models_old_name".
Proof.
  destruct (C5_physical_names reference.collaborators) as (_ & Hset & Hunset & _).
  split; [|split].
  - exact (Hunset reference.customer (or_introl eq_refl)).
  - apply Hset; [reflexivity|discriminate].
  - exact (Hunset (ModelSchema.set_name "Old Name" reference.customer) (or_introl eq_refl)).
Defined.

(** The slug never holds a hyphen, whatever [slugify] returns. *)
Lemma replace_removes old new s :
  old ≠ new → ∀ c, In c (list_ascii_of_string (replace old new s)) → c ≠ old.
Proof.
  intros Hneq. induction s as [|a s IH]; simpl; [tauto|].
  intros c [Hc|Hc]; [|exact (IH c Hc)].
  destruct (Ascii.eqb_spec a old) as [_|Ha]; subst c; congruence.
Qed.

(** *** The null accessor *)

(** C9: when the options hold no "null" entry the accessor returns
    [False]. *)
Theorem C9_null_defaults_to_false (self : FieldSchema.t) :
  FieldSchema.kwargs self !! "null" = None →
  FieldSchema.null self = VBool false.
Proof.
  intros Hmissing. unfold FieldSchema.null. rewrite Hmissing. reflexivity.
Qed.

Lemma C9_null_defaults_to_false_witness :
  FieldSchema.kwargs reference.email !! "null" = None
  ∧ FieldSchema.null reference.email = VBool false.
Proof.
  split; [reflexivity|].
  apply C9_null_defaults_to_false. reflexivity.
Defined.

(** *** The on-delete conversions *)

Lemma policy_named_policy_name p :
  FieldKwargsJSON.policy_named (FieldKwargsJSON.policy_name p) = Some p.
Proof. destruct p; reflexivity. Qed.

Lemma getattr_models_policy env p :
  FieldKwargsJSON.getattr_models env (FieldKwargsJSON.policy_name p)
  = Ok (VCallable (Policy p)).
Proof.
  unfold FieldKwargsJSON.getattr_models. rewrite policy_named_policy_name. reflexivity.
Qed.

(** C6: an options mapping whose [on_delete] is one of the behaviours of
    [django.db.models] is serialized to the mapping holding the name of the
    behaviour, and deserializing that gives the original mapping back;
    a mapping without an [on_delete] entry, and [None], are returned by
    both conversions as they are. *)
Theorem C6_on_delete_round_trip (env : Collaborators) :
  (∀ (d : gmap string pyvalue) p,
     d !! "on_delete" = Some (VCallable (Policy p)) →
     FieldKwargsJSON._convert_on_delete_to_string (Some d)
     = Some (<["on_delete" := VStr (FieldKwargsJSON.policy_name p)]> d)
     ∧ FieldKwargsJSON._convert_on_delete_to_function env
         (FieldKwargsJSON._convert_on_delete_to_string (Some d))
       = Ok (Some d))
  ∧ (∀ (d : gmap string pyvalue),
       d !! "on_delete" = None →
       FieldKwargsJSON._convert_on_delete_to_string (Some d) = Some d
       ∧ FieldKwargsJSON._convert_on_delete_to_function env (Some d) = Ok (Some d))
  ∧ FieldKwargsJSON._convert_on_delete_to_string None = None
  ∧ FieldKwargsJSON._convert_on_delete_to_function env None = Ok None.
Proof.
  split; [|split; [|split]].
  - intros d p Hpolicy.
    unfold FieldKwargsJSON._convert_on_delete_to_string. rewrite Hpolicy. simpl.
    split; [reflexivity|].
    unfold FieldKwargsJSON._convert_on_delete_to_function.
    rewrite lookup_insert_eq, getattr_models_policy, insert_insert_eq.
    rewrite (insert_id d _ _ Hpolicy). reflexivity.
  - intros d Hmissing.
    unfold FieldKwargsJSON._convert_on_delete_to_string,
      FieldKwargsJSON._convert_on_delete_to_function.
    rewrite Hmissing. split; reflexivity.
  - reflexivity.
  - reflexivity.
Qed.

Lemma C6_on_delete_round_trip_witness :
  FieldKwargsJSON._convert_on_delete_to_function reference.collaborators
    (FieldKwargsJSON._convert_on_delete_to_string (Some reference.relation_options))
  = Ok (Some reference.relation_options)
  ∧ FieldKwargsJSON._convert_on_delete_to_string (Some reference.text_options)
    = Some reference.text_options.
Proof.
  destruct (C6_on_delete_round_trip reference.collaborators) as (Hpolicy & Hmissing & _).
  split.
  - exact (proj2 (Hpolicy reference.relation_options CASCADE eq_refl)).
  - exact (proj1 (Hmissing reference.text_options eq_refl)).
Defined.

(** *** Pre- and postconditions of computations *)

Section hoare_rules.
Context {St : Type} (E : exn → Prop).

Lemma hoare_conseq {A} (P P' Q Q' : St → Prop) (c : M St A) :
  (∀ s, P s → P' s) → (∀ s, Q' s → Q s) → hoare P' c Q' E → hoare P c Q E.
Proof.
  intros Hpre Hpost Hc s Hs. destruct (Hc s (Hpre s Hs)) as [Hq He].
  split; [exact (Hpost _ Hq)|exact He].
Qed.

Lemma hoare_ret {A} (P Q : St → Prop) (a : A) :
  (∀ s, P s → Q s) → hoare P (ret a) Q E.
Proof. intros Hpq s Hs. split; [exact (Hpq s Hs)|exact I]. Qed.

Lemma hoare_raise {A} (P Q : St → Prop) e :
  (∀ s, P s → Q s) → E e → hoare P (@raise St A e) Q E.
Proof. intros Hpq He s Hs. split; [exact (Hpq s Hs)|exact He]. Qed.

Lemma hoare_bind {A B} (P R Q : St → Prop) (c : M St A) (k : A → M St B) :
  hoare P c R E → (∀ s, R s → Q s) → (∀ a, hoare R (k a) Q E) →
  hoare P (bind c k) Q E.
Proof.
  intros Hc Hrq Hk s Hs. unfold bind. specialize (Hc s Hs).
  destruct (c s) as [[a|e] s']; simpl in Hc; destruct Hc as [Hs' He].
  - exact (Hk a s' Hs').
  - split; [exact (Hrq s' Hs')|exact He].
Qed.

(** After [gets], the rest runs from the very state that was read. *)
Lemma hoare_bind_gets {A B} (P Q : St → Prop) (f : St → A) (k : A → M St B) :
  (∀ s0, P s0 → hoare (fun s => s = s0) (k (f s0)) Q E) →
  hoare P (bind (gets f) k) Q E.
Proof. intros Hk s Hs. unfold bind, gets. exact (Hk s Hs s eq_refl). Qed.

Lemma hoare_modify (P Q : St → Prop) (f : St → St) :
  (∀ s, P s → Q (f s)) → hoare P (modify f) Q E.
Proof. intros Hf s Hs. split; [exact (Hf s Hs)|exact I]. Qed.

Lemma hoare_call {T A} (P Q : St → Prop)
    (get : St → T) (set : T → St → St) (f : T → ext A * T) :
  (∀ s t, P s → Q (set t s)) → fails_within E f →
  hoare P (call get set f) Q E.
Proof.
  intros Hset Hfail s Hs. unfold call. specialize (Hfail (get s)).
  destruct (f (get s)) as [[a|what] t]; simpl in *; split; auto.
Qed.

Lemma hoare_try_except {A} (E' : exn → Prop) (P R Q : St → Prop)
    (c : M St A) (h : exn → option (M St A)) :
  hoare P c R E' → (∀ s, R s → Q s) →
  (∀ e, E' e → match h e with Some handler => hoare R handler Q E | None => E e end) →
  hoare P (try_except c h) Q E.
Proof.
  intros Hc Hrq Hh s Hs. unfold try_except. specialize (Hc s Hs).
  destruct (c s) as [[a|e] s']; simpl in Hc; destruct Hc as [Hs' He].
  - split; [exact (Hrq s' Hs')|exact I].
  - specialize (Hh e He). destruct (h e) as [handler|].
    + exact (Hh s' Hs').
    + split; [exact (Hrq s' Hs')|exact Hh].
Qed.

End hoare_rules.

Lemma hoare_update_self {T} E (P Q : T * world → Prop) (f : T → T) :
  (∀ self w, P (self, w) → Q (f self, w)) → hoare P (update_self f) Q E.
Proof. intros Hf. apply hoare_modify. intros [self w]. exact (Hf self w). Qed.

Lemma hoare_in_world {T A} E (P Q : T * world → Prop) (c : M world A) :
  (∀ self, hoare (fun w => P (self, w)) c (fun w => Q (self, w)) E) →
  hoare P (in_world c) Q E.
Proof.
  intros Hc [self w] Hs. unfold in_world. simpl.
  specialize (Hc self w Hs). destruct (c w) as [r w']. exact Hc.
Qed.

Lemma fails_within_external {P A} (f : P → ext A * P) : fails_within external f.
Proof. intros p. destruct (fst (f p)); exact I. Qed.


Lemma meta_get_field_keeps {St} (P : St → Prop) model name :
  keeps P (fun e => match e with FieldDoesNotExist _ => True | _ => False end)
        (meta_get_field model name).
Proof.
  unfold meta_get_field, keeps.
  destruct (List.find _ _); [apply hoare_ret|apply hoare_raise]; auto.
Qed.

Lemma factory_get_keeps env (P : world → Prop) E owner :
  (∀ w a, P w → P (set_all_models a w)) →
  (∀ row store, fails_within E (factory_get_model env row store)) →
  keeps P E (ModelSchema.factory_get env owner).
Proof.
  intros Hstable Hfail. unfold ModelSchema.factory_get, keeps.
  apply hoare_bind_gets. intros w0 Hw0.
  apply hoare_call; [intros w a ->; apply Hstable; exact Hw0|apply Hfail].
Qed.

Lemma _get_model_with_field_keeps env (P : world → Prop) E self :
  (∀ w a, P w → P (set_all_models a w)) →
  (∀ row store, fails_within E (factory_get_model env row store)) →
  keeps P E (FieldSchema._get_model_with_field env self).
Proof.
  intros Hstable Hfail. unfold FieldSchema._get_model_with_field, ModelSchema.as_model, keeps.
  apply (hoare_bind E P P); [apply factory_get_keeps; assumption|auto|]. intros model.
  apply (hoare_bind E P P); [|auto|intros field; apply hoare_ret; auto].
  eapply (hoare_try_except E _ P P).
  - apply (hoare_bind _ P P); [apply meta_get_field_keeps|auto|].
    intros fld; apply hoare_ret; auto.
  - auto.
  - intros [] He; simpl in *; try contradiction. apply hoare_ret; auto.
Qed.

(** *** Validation and saving of field definitions *)

Lemma validate_outcome (self : FieldSchema.t) (w : world) :
  FieldSchema.validate (self, w)
  = (if null_narrowed self
     then Raise (NullFieldChangedError
                   ("Cannot change NULL field '" ++ FieldSchema.name self ++ "' to NOT NULL"))
     else if str_in (FieldSchema.name self) FieldSchema.get_prohibited_names
     then Raise (InvalidFieldNameError (FieldSchema.name self ++ " is not a valid field name"))
     else Ok tt,
     (self, w)).
Proof.
  unfold FieldSchema.validate, null_narrowed, bind, gets, raise, ret. cbn [fst].
  destruct (truthy (FieldSchema._initial_null self) && negb (truthy (FieldSchema.null self)));
    [reflexivity|].
  destruct (str_in (FieldSchema.name self) FieldSchema.get_prohibited_names); reflexivity.
Qed.

Lemma validate_passes self w :
  null_narrowed self = false →
  str_in (FieldSchema.name self) FieldSchema.get_prohibited_names = false →
  FieldSchema.validate (self, w) = (Ok tt, (self, w)).
Proof. intros Hnull Hname. rewrite validate_outcome, Hnull, Hname. reflexivity. Qed.

Lemma save_stops_at_validation env self w e s :
  FieldSchema.validate (self, w) = (Raise e, s) →
  FieldSchema.save env (self, w) = (Raise e, s).
Proof. intros Hv. unfold FieldSchema.save, bind. rewrite Hv. reflexivity. Qed.

Lemma field_super_save_keeps env (P : FieldSchema.t * world → Prop) E :
  (∀ self w v, P (self, w) → P (FieldSchema.set_kwargs v self, w)) →
  (∀ self w v, P (self, w) → P (FieldSchema.set_pk v self, w)) →
  (∀ self w st, P (self, w) → P (self, set_store st w)) →
  (∀ row, fails_within E (orm_save_field env row)) →
  keeps P E (FieldSchema.super_save env).
Proof.
  intros Hkwargs Hpk Hstore Hfail. unfold FieldSchema.super_save, keeps.
  apply (hoare_bind E P P); [|auto|].
  { apply hoare_update_self. intros self w Hs.
    destruct (FieldKwargsJSON.get_prep_value _); [apply Hkwargs|]; exact Hs. }
  intros _. apply hoare_bind_gets. intros s0 Hs0.
  apply (hoare_bind E _ P); [|auto|].
  { apply hoare_in_world. intros self.
    apply hoare_call; [|apply Hfail].
    intros w st <-. apply Hstore. exact Hs0. }
  intros new_pk. apply hoare_update_self. intros self w. apply Hpk.
Qed.

(** What [save] does once validation has passed: a property [P] of the
    state that the assignments of [save] respect is kept, and only what the
    collaborators may raise is raised.  The DDL and the assignment to the
    editor happen on an instance that has an editor. *)
Lemma field_save_after_validation env (P : FieldSchema.t * world → Prop) E :
  (∀ self w v, P (self, w) → P (FieldSchema.set_kwargs v self, w)) →
  (∀ self w v, P (self, w) → P (FieldSchema.set_pk v self, w)) →
  (∀ self w st, P (self, w) → P (self, set_store st w)) →
  (∀ self w a, P (self, w) → P (self, set_all_models a w)) →
  (∀ self w db, P (self, w) → is_Some (FieldSchema._schema_editor self) →
                P (self, set_database db w)) →
  (∀ self w editor, P (self, w) → is_Some (FieldSchema._schema_editor self) →
                    P (FieldSchema.set_schema_editor (Some editor) self, w)) →
  (∀ row, fails_within E (orm_save_field env row)) →
  (∀ row store, fails_within E (factory_get_model env row store)) →
  (∀ editor model field, fails_within E (update_column env editor model field)) →
  ∀ self w,
    FieldSchema.validate (self, w) = (Ok tt, (self, w)) → P (self, w) →
    P (snd (FieldSchema.save env (self, w)))
    ∧ match fst (FieldSchema.save env (self, w)) with Ok _ => True | Raise e => E e end.
Proof.
  intros Hkwargs Hpk Hstore Hmodels Hdb Heditor Hf1 Hf2 Hf3 self w Hv Hs.
  assert (∃ rest, FieldSchema.save env (self, w) = rest (self, w)
                  ∧ keeps P E rest) as (rest & -> & Hrest).
  { eexists. split.
    { unfold FieldSchema.save. unfold bind at 1. rewrite Hv. reflexivity. }
    apply (hoare_bind E P P); [apply field_super_save_keeps; assumption|auto|].
    intros _. apply hoare_bind_gets. intros [self0 w0] Hs0. cbn [fst].
    pose (R := fun s : FieldSchema.t * world => P s ∧ fst s = self0).
    apply (hoare_bind E _ R); [|intros s [Hp _]; exact Hp|].
    { apply hoare_in_world. intros fld w1 [= -> ->].
      destruct (_get_model_with_field_keeps env (fun w => P (self0, w)) E self0
                  (Hmodels self0) Hf2 w0 Hs0) as [Hp He].
      split; [split; [exact Hp|reflexivity]|exact He]. }
    intros mf.
    destruct (FieldSchema._schema_editor self0) as [editor|] eqn:Hed;
      [|apply hoare_ret; intros s [Hp _]; exact Hp].
    apply (hoare_bind E R R); [|intros s [Hp _]; exact Hp|].
    { apply hoare_in_world. intros fld.
      apply hoare_call; [|apply Hf3].
      intros w1 db [Hp Heq]. simpl in Heq. subst fld.
      split; [|reflexivity]. apply Hdb; [exact Hp|rewrite Hed; eauto]. }
    intros editor'. apply hoare_update_self.
    intros fld w1 [Hp Heq]. simpl in Heq. subst fld.
    apply Heditor; [exact Hp|rewrite Hed; eauto]. }
  exact (Hrest (self, w) Hs).
Qed.

Lemma validate_keeps_state self w : snd (FieldSchema.validate (self, w)) = (self, w).
Proof. rewrite validate_outcome. reflexivity. Qed.

Lemma null_narrowed_true self :
  null_narrowed self = true
  ↔ truthy (FieldSchema._initial_null self) = true ∧ truthy (FieldSchema.null self) = false.
Proof. unfold null_narrowed. rewrite andb_true_iff, negb_true_iff. reflexivity. Qed.

(** Past validation, [save] raises only what a collaborator raises, and
    leaves the name and the remembered null state of the instance alone. *)
Lemma save_past_validation env self w :
  FieldSchema.validate (self, w) = (Ok tt, (self, w)) →
  raises_nothing_of_its_own (fst (FieldSchema.save env (self, w)))
  ∧ FieldSchema._initial_null (fst (snd (FieldSchema.save env (self, w))))
    = FieldSchema._initial_null self
  ∧ FieldSchema.name (fst (snd (FieldSchema.save env (self, w)))) = FieldSchema.name self.
Proof.
  intros Hv.
  pose (P := fun s : FieldSchema.t * world =>
               FieldSchema._initial_null (fst s) = FieldSchema._initial_null self
               ∧ FieldSchema.name (fst s) = FieldSchema.name self).
  assert (P (snd (FieldSchema.save env (self, w)))
          ∧ match fst (FieldSchema.save env (self, w)) with
            | Ok _ => True
            | Raise e => external e
            end) as [[Hnull Hname] Hraise].
  { apply field_save_after_validation;
      solve [ intros; apply fails_within_external | subst P; simpl; tauto ]. }
  split; [|split; assumption].
  destruct (fst (FieldSchema.save env (self, w))) as [|[]]; simpl in *; tauto.
Qed.

Lemma save_keeps_initial_null env self w :
  FieldSchema._initial_null (fst (snd (FieldSchema.save env (self, w))))
  = FieldSchema._initial_null self
  ∧ FieldSchema.name (fst (snd (FieldSchema.save env (self, w)))) = FieldSchema.name self.
Proof.
  destruct (FieldSchema.validate (self, w)) as [[[]|e] s] eqn:Hv.
  - pose proof (validate_keeps_state self w) as Hs. rewrite Hv in Hs. simpl in Hs. subst s.
    exact (proj2 (save_past_validation env self w Hv)).
  - pose proof (validate_keeps_state self w) as Hs. rewrite Hv in Hs. simpl in Hs. subst s.
    rewrite (save_stops_at_validation env _ _ _ _ Hv). split; reflexivity.
Qed.

(** With collaborators that do not fail, [save] returns once validation
    has passed. *)
Lemma save_returns env self w :
  field_save_never_fails env →
  FieldSchema.validate (self, w) = (Ok tt, (self, w)) →
  fst (FieldSchema.save env (self, w)) = Ok tt.
Proof.
  intros (Hf1 & Hf2 & Hf3) Hv.
  assert (True ∧ match fst (FieldSchema.save env (self, w)) with
                 | Ok _ => True
                 | Raise e => False
                 end) as [_ Hraise].
  { apply (field_save_after_validation env (fun _ => True) (fun _ => False)); auto. }
  destruct (fst (FieldSchema.save env (self, w))) as [[]|e]; [reflexivity|contradiction].
Qed.

(** *** Construction *)

Lemma registry_get_model_pure registry name w :
  ∃ found, utils.ModelRegistry.get_model registry name w = (Ok found, w).
Proof.
  unfold utils.ModelRegistry.get_model, try_except, bind, apps_get_model, ret.
  destruct (w_all_models w !! _) as [models|]; [|eauto].
  destruct (models !! _); eauto.
Qed.


Lemma get_registered_model_field_pure self w :
  ∃ found, FieldSchema.get_registered_model_field self w = (Ok found, w).
Proof.
  unfold FieldSchema.get_registered_model_field, ModelSchema.get_registered_model, bind.
  destruct (registry_get_model_pure (ModelSchema._registry (FieldSchema.model_schema self))
              (ModelSchema.model_name (FieldSchema.model_schema self)) w) as [[model|] ->];
    [|unfold ret; eauto].
  destruct (str_truthy (FieldSchema.name self)); [|unfold ret; eauto].
  unfold try_except, bind, meta_get_field.
  destruct (List.find _ _); unfold ret, raise; eauto.
Qed.

Lemma field_init_outcome pk name owner class_name kwargs w :
  ∃ initial_field,
    FieldSchema.__init__ pk name owner class_name kwargs w
    = (Ok {| FieldSchema.pk := pk; FieldSchema.name := name;
             FieldSchema.model_schema := owner; FieldSchema.class_name := class_name;
             FieldSchema.kwargs := kwargs;
             FieldSchema._initial_name := name;
             FieldSchema._initial_null := default (VBool false) (kwargs !! "null");
             FieldSchema._initial_field := initial_field;
             FieldSchema._schema_editor :=
               if ModelSchema.managed owner
               then Some {| fse_initial_field := initial_field;
                            fse_db_name := ModelSchema.db_name owner |}
               else None |}, w).
Proof.
  unfold FieldSchema.__init__, bind.
  match goal with |- context [FieldSchema.get_registered_model_field ?s w] =>
    destruct (get_registered_model_field_pure s w) as [found ->] end.
  exists found. reflexivity.
Qed.

(** *** Validation errors *)

Lemma save_rejects_prohibited_name env self w :
  str_in (FieldSchema.name self) FieldSchema.get_prohibited_names = true →
  FieldSchema.save env (self, w)
  = (Raise (if null_narrowed self
            then NullFieldChangedError
                   ("Cannot change NULL field '" ++ FieldSchema.name self ++ "' to NOT NULL")
            else InvalidFieldNameError (FieldSchema.name self ++ " is not a valid field name")),
     (self, w)).
Proof.
  intros Hname. apply save_stops_at_validation.
  rewrite validate_outcome, Hname. destruct (null_narrowed self); reflexivity.
Qed.

Lemma reference_never_fails : field_save_never_fails reference.collaborators.
Proof. repeat split; intros; intros p; exact I. Qed.

Lemma declared_narrowed_is_constructible :
  ∃ built,
    FieldSchema.__init__ None "_declared" reference.customer "django.db.models.TextField"
      {[ "null" := VBool true ]} reference.empty_world
    = (Ok built, reference.empty_world)
    ∧ FieldSchema.null_setter (VBool false) built = reference.declared_narrowed.
Proof. eexists. split; reflexivity. Qed.

(** C3, as stated, fails: a definition named "_declared" that was built
    with null=True and then set to null=False is rejected by the null guard,
    which is tested first, with [NullFieldChangedError]. *)
Lemma C3_counterexample :
  ¬ (∀ (env : Collaborators) (self : FieldSchema.t) (w : world),
       str_in (FieldSchema.name self) FieldSchema.get_prohibited_names = true →
       ∃ msg, fst (FieldSchema.save env (self, w)) = Raise (InvalidFieldNameError msg)).
Proof.
  intros Hclaim.
  destruct (Hclaim reference.collaborators reference.declared_narrowed
              reference.empty_world eq_refl) as [msg Hmsg].
  vm_compute in Hmsg. discriminate Hmsg.
Qed.

(** C3, amended: saving a field definition whose name is in the blocklist
    raises [InvalidFieldNameError], unless the null guard rejects it first
    with [NullFieldChangedError]; either way the instance and the whole
    state (stored definitions, registry, physical schema) are as before. *)
Theorem C3_prohibited_name_rejected_before_any_effect
    (env : Collaborators) (self : FieldSchema.t) (w : world) :
  str_in (FieldSchema.name self) FieldSchema.get_prohibited_names = true →
  FieldSchema.save env (self, w)
  = (Raise (if null_narrowed self
            then NullFieldChangedError
                   ("Cannot change NULL field '" ++ FieldSchema.name self ++ "' to NOT NULL")
            else InvalidFieldNameError (FieldSchema.name self ++ " is not a valid field name")),
     (self, w)).
Proof. apply save_rejects_prohibited_name. Qed.

Lemma C3_prohibited_name_witness :
  str_in (FieldSchema.name reference.declared) FieldSchema.get_prohibited_names = true
  ∧ FieldSchema.save reference.collaborators (reference.declared, reference.empty_world)
    = (Raise (InvalidFieldNameError "_declared is not a valid field name"),
       (reference.declared, reference.empty_world)).
Proof.
  split; [reflexivity|].
  exact (C3_prohibited_name_rejected_before_any_effect
           reference.collaborators reference.declared reference.empty_world eq_refl).
Defined.

(** C10: [save] raises the null-narrowing error exactly when the null state
    remembered at construction is true and the current one is false; that
    state is set by the constructor and [save] does not refresh it.  So an
    instance built with null=False passes validation when saved with
    null=True and again when saved with null=False, and both saves return
    when the collaborators do not fail. *)
Theorem C10_null_guard_compares_with_construction (env : Collaborators) :
  (∀ self w,
     (∃ msg, fst (FieldSchema.save env (self, w)) = Raise (NullFieldChangedError msg))
     ↔ truthy (FieldSchema._initial_null self) = true
       ∧ truthy (FieldSchema.null self) = false)
  ∧ (∀ self w,
       FieldSchema._initial_null (fst (snd (FieldSchema.save env (self, w))))
       = FieldSchema._initial_null self)
  ∧ (∀ pk name owner class_name kwargs w0,
       truthy (default (VBool false) (kwargs !! "null")) = false →
       str_in name FieldSchema.get_prohibited_names = false →
       ∃ self,
         FieldSchema.__init__ pk name owner class_name kwargs w0 = (Ok self, w0)
         ∧ FieldSchema._initial_null self = default (VBool false) (kwargs !! "null")
         ∧ ∀ w,
             let first := FieldSchema.save env (FieldSchema.null_setter (VBool true) self, w) in
             let second :=
               FieldSchema.save env
                 (FieldSchema.null_setter (VBool false) (fst (snd first)), snd (snd first)) in
             raises_nothing_of_its_own (fst first)
             ∧ raises_nothing_of_its_own (fst second)
             ∧ (field_save_never_fails env → fst first = Ok tt ∧ fst second = Ok tt)).
Proof.
  split; [|split].
  - intros self w. rewrite <- null_narrowed_true. split.
    + intros [msg Hraise].
      destruct (null_narrowed self) eqn:Hnarrowed; [reflexivity|exfalso].
      destruct (str_in (FieldSchema.name self) FieldSchema.get_prohibited_names) eqn:Hname.
      * rewrite (save_rejects_prohibited_name env self w Hname), Hnarrowed in Hraise. discriminate Hraise.
      * pose proof (save_past_validation env self w (validate_passes _ _ Hnarrowed Hname))
          as [Hown _].
        rewrite Hraise in Hown. exact Hown.
    + intros Hnarrowed. eexists.
      erewrite save_stops_at_validation; [reflexivity|].
      rewrite validate_outcome, Hnarrowed. reflexivity.
  - intros self w. exact (proj1 (save_keeps_initial_null env self w)).
  - intros pk name owner class_name kwargs w0 Hnull Hname.
    destruct (field_init_outcome pk name owner class_name kwargs w0) as [initial_field ->].
    eexists. split; [reflexivity|]. split; [reflexivity|].
    intros w. cbv zeta.
    set (self1 := FieldSchema.null_setter (VBool true) _).
    set (first := FieldSchema.save env (self1, w)).
    assert (FieldSchema.validate (self1, w) = (Ok tt, (self1, w))) as Hv1.
    { apply validate_passes; [|exact Hname].
      unfold null_narrowed.
      change (FieldSchema._initial_null self1) with (default (VBool false) (kwargs !! "null")).
      rewrite Hnull. reflexivity. }
    destruct (save_keeps_initial_null env self1 w) as [Hkept_null Hkept_name].
    fold first in Hkept_null, Hkept_name.
    change (FieldSchema._initial_null self1) with (default (VBool false) (kwargs !! "null"))
      in Hkept_null.
    change (FieldSchema.name self1) with name in Hkept_name.
    assert (FieldSchema.validate
              (FieldSchema.null_setter (VBool false) (fst (snd first)), snd (snd first))
            = (Ok tt, (FieldSchema.null_setter (VBool false) (fst (snd first)),
                       snd (snd first)))) as Hv2.
    { apply validate_passes.
      - unfold null_narrowed.
        change (FieldSchema._initial_null (FieldSchema.null_setter (VBool false) first.2.1))
          with (FieldSchema._initial_null first.2.1).
        rewrite Hkept_null, Hnull. reflexivity.
      - change (FieldSchema.name (FieldSchema.null_setter (VBool false) first.2.1))
          with (FieldSchema.name first.2.1).
        rewrite Hkept_name. exact Hname. }
    split; [exact (proj1 (save_past_validation env _ _ Hv1))|].
    split; [exact (proj1 (save_past_validation env _ _ Hv2))|].
    intros Hreliable. split; apply save_returns; assumption.
Qed.

Lemma C10_null_guard_witness :
  truthy (default (VBool false) (reference.not_null_options !! "null")) = false
  ∧ str_in "email" FieldSchema.get_prohibited_names = false
  ∧ ∃ self,
      FieldSchema.__init__ None "email" reference.customer "django.db.models.TextField"
        reference.not_null_options reference.empty_world
      = (Ok self, reference.empty_world)
      ∧ let first :=
          FieldSchema.save reference.collaborators
            (FieldSchema.null_setter (VBool true) self, reference.empty_world) in
        let second :=
          FieldSchema.save reference.collaborators
            (FieldSchema.null_setter (VBool false) (fst (snd first)), snd (snd first)) in
        fst first = Ok tt ∧ fst second = Ok tt.
Proof.
  split; [reflexivity|]. split; [reflexivity|].
  destruct (proj2 (proj2 (C10_null_guard_compares_with_construction reference.collaborators))
              None "email" reference.customer "django.db.models.TextField"
              reference.not_null_options reference.empty_world eq_refl eq_refl)
    as (self & Hinit & _ & Hsaves).
  exists self. split; [exact Hinit|].
  exact (proj2 (proj2 (Hsaves reference.empty_world)) reference_never_fails).
Defined.

(** C1, as the code behaves: a managed model is created, and a field
    definition built for it with null=False is saved with null=True, so that
    the stored definition and the column allow null.  The same instance is
    then set to null=False and saved: the second save returns, narrows the
    stored definition and issues the DDL that makes the column NOT NULL. *)
Theorem C1_narrowing_accepted_on_resaved_instance :
  ∃ model0 model w0 self,
    ModelSchema.__init__ reference.collaborators reference.customer_row reference.empty_world
    = (Ok model0, reference.empty_world)
    ∧ ModelSchema.save reference.collaborators (model0, reference.empty_world)
      = (Ok tt, (model, w0))
    ∧ FieldSchema.__init__ None "email" model "django.db.models.TextField"
        reference.not_null_options w0
      = (Ok self, w0)
    ∧ let first :=
        FieldSchema.save reference.collaborators
          (FieldSchema.null_setter (VBool true) self, w0) in
      let second :=
        FieldSchema.save reference.collaborators
          (FieldSchema.null_setter (VBool false) (fst (snd first)), snd (snd first)) in
      fst first = Ok tt
      ∧ stored_null (snd (snd first)) 1 = Some (VBool true)
      ∧ db_ddl (w_database (snd (snd first)))
        = ["CREATE OR ALTER TABLE Customer";
           "ALTER TABLE Customer ADD OR ALTER COLUMN email NULL"]
      ∧ fst second = Ok tt
      ∧ stored_null (snd (snd second)) 1 = Some (VBool false)
      ∧ db_ddl (w_database (snd (snd second)))
        = ["CREATE OR ALTER TABLE Customer";
           "ALTER TABLE Customer ADD OR ALTER COLUMN email NULL";
           "ALTER TABLE Customer ADD OR ALTER COLUMN email NOT NULL"].
Proof.
  do 4 eexists.
  split; [vm_compute; reflexivity|].
  split; [vm_compute; reflexivity|].
  split; [vm_compute; reflexivity|].
  vm_compute. repeat split; reflexivity.
Qed.

(** *** Definitions without a schema editor *)






Lemma customer_is_constructible :
  ModelSchema.__init__ reference.collaborators
    {| mr_pk := Some 1; mr_name := "Customer"; mr_db_name := "default";
       mr_managed := true; mr_db_table_name := None |} reference.empty_world
  = (Ok reference.customer, reference.empty_world).
Proof. reflexivity. Qed.




(* ===================================================================== *)
(** ** Further properties of utils.py                                     *)
(* ===================================================================== *)

Lemma str_in_In x xs : str_in x xs = true ↔ In x xs.
Proof.
  induction xs as [|y ys IH]; simpl; [split; [discriminate|tauto]|].
  rewrite orb_true_iff, IH, String.eqb_eq. split; intros [H|H]; auto.
Qed.

Lemma str_in_names_find field columns :
  str_in field (List.map fi_name columns) = true
  ↔ ∃ column, List.find (fun c => String.eqb (fi_name c) field) columns = Some column.
Proof.
  induction columns as [|c rest IH]; simpl.
  - split; [discriminate|intros [column H]; discriminate].
  - rewrite String.eqb_sym. destruct (String.eqb (fi_name c) field); simpl; [|exact IH].
    split; eauto.
Qed.

(** X1: when the introspection returns the table names, [db_table_exists]
    returns whether the name is among them; the cursor it was handed is
    closed again, no cursor is open that was not open before, and the
    storage engine is as before. *)
Theorem X1_db_table_exists_on_return
    (env : Collaborators) (table : string) (w : world) (names : list string) :
  table_names env (w_next_cursor w) (w_database w) = inl names →
  ∃ answer w',
    utils.db_table_exists env table w = (Ok answer, w')
    ∧ (answer = true ↔ In table names)
    ∧ (w_next_cursor w ∉ w_open_cursors w')
    ∧ (∀ c, c ∈ w_open_cursors w' → c ∈ w_open_cursors w)
    ∧ w_database w' = w_database w.
Proof.
  intros Hnames. exists (str_in table names), (cursor_returned w).
  split; [exact (db_table_exists_returns env _ _ _ Hnames)|].
  split; [apply str_in_In|]. split; [apply cursor_returned_closed|].
  split; [|reflexivity].
  simpl. intros c [Hin Hout]%elem_of_difference.
  apply elem_of_union in Hin as [Hin|Hin]; [contradiction|exact Hin].
Qed.

Lemma X1_db_table_exists_witness :
  table_names reference.collaborators (w_next_cursor reference.crm_world)
    (w_database reference.crm_world)
  = inl ["dynamic_models_customer"]
  ∧ fst (utils.db_table_exists reference.collaborators "dynamic_models_customer"
           reference.crm_world) = Ok true
  ∧ fst (utils.db_table_exists reference.collaborators "dynamic_models_order"
           reference.crm_world) = Ok false.
Proof.
  split; [vm_compute; reflexivity|].
  split.
  - destruct (X1_db_table_exists_on_return reference.collaborators "dynamic_models_customer"
                reference.crm_world ["dynamic_models_customer"] eq_refl)
      as (answer & w' & -> & Hanswer & _).
    simpl. f_equal. apply Hanswer. left. reflexivity.
  - destruct (X1_db_table_exists_on_return reference.collaborators "dynamic_models_order"
                reference.crm_world ["dynamic_models_customer"] eq_refl)
      as (answer & w' & -> & Hanswer & _).
    simpl. f_equal. destruct answer; [|reflexivity].
    destruct (proj1 Hanswer eq_refl) as [H|[]]. discriminate H.
Defined.

(** X2: on one table description, [db_table_has_field] and
    [db_field_allows_null] agree: the first answers [True] exactly when the
    second returns a flag, and [False] exactly when the second raises
    [FieldDoesNotExist]; both leave the same state behind. *)
Theorem X2_has_field_agrees_with_allows_null
    (env : Collaborators) (table field : string) (w : world) (columns : list FieldInfo) :
  get_table_description env (w_next_cursor w) table (w_database w) = inl columns →
  ∃ answer,
    fst (utils.db_table_has_field env table field w) = Ok answer
    ∧ (answer = true
       ↔ ∃ flag, fst (utils.db_field_allows_null env table field w) = Ok flag)
    ∧ (answer = false
       ↔ fst (utils.db_field_allows_null env table field w)
         = Raise (FieldDoesNotExist
                    ("field " ++ field ++ " does not exist on table " ++ table)))
    ∧ snd (utils.db_table_has_field env table field w)
      = snd (utils.db_field_allows_null env table field w).
Proof.
  intros Hdesc.
  pose proof (_get_table_description_returns env _ _ _ Hdesc) as Hret.
  exists (str_in field (List.map fi_name columns)).
  unfold utils.db_table_has_field, utils.db_field_allows_null, bind. rewrite Hret.
  split; [reflexivity|].
  destruct (List.find (fun c => String.eqb (fi_name c) field) columns) as [column|] eqn:Hfind.
  - rewrite (allows_null_loop_found _ _ _ _ _ Hfind).
    assert (str_in field (List.map fi_name columns) = true) as ->
      by (apply str_in_names_find; eauto).
    simpl. repeat split; try discriminate; eauto.
  - rewrite (allows_null_loop_missing _ _ _ _ Hfind).
    assert (str_in field (List.map fi_name columns) = false) as ->.
    { destruct (str_in field (List.map fi_name columns)) eqn:Hin; [|reflexivity].
      apply str_in_names_find in Hin as [column Hcolumn]. congruence. }
    simpl. repeat split; try discriminate; auto.
    intros [flag Hflag]. discriminate Hflag.
Qed.

Lemma X2_has_field_witness :
  get_table_description reference.collaborators (w_next_cursor reference.crm_world)
    "dynamic_models_customer" (w_database reference.crm_world)
  = inl [ {| fi_name := "id"; fi_null_ok := false |};
          {| fi_name := "email"; fi_null_ok := true |} ]
  ∧ ∃ answer,
      fst (utils.db_table_has_field reference.collaborators "dynamic_models_customer"
             "email" reference.crm_world) = Ok answer
      ∧ (answer = true
         ↔ ∃ flag, fst (utils.db_field_allows_null reference.collaborators
                          "dynamic_models_customer" "email" reference.crm_world) = Ok flag).
Proof.
  split; [vm_compute; reflexivity|].
  destruct (X2_has_field_agrees_with_allows_null reference.collaborators
              "dynamic_models_customer" "email" reference.crm_world _ eq_refl)
    as (answer & Hanswer & Htrue & _).
  exists answer. split; assumption.
Defined.

Lemma unregister_model_outcome self model_name w :
  utils.ModelRegistry.unregister_model self model_name w
  = match w_all_models w !! utils.ModelRegistry.app_label self with
    | Some models =>
        match models !! lower model_name with
        | Some _ =>
            (Ok tt,
             set_all_models
               (<[utils.ModelRegistry.app_label self := delete (lower model_name) models]>
                  (w_all_models w)) w)
        | None => (Raise (LookupError ("'" ++ model_name ++ "' not found.")), w)
        end
    | None =>
        (Raise (LookupError ("'" ++ model_name ++ "' not found.")),
         set_all_models (<[utils.ModelRegistry.app_label self := ∅]> (w_all_models w)) w)
    end.
Proof.
  unfold utils.ModelRegistry.unregister_model, utils.ModelRegistry.del_registered,
    try_except, bind, all_models_getitem.
  destruct (w_all_models w !! utils.ModelRegistry.app_label self) as [models|].
  - destruct (models !! lower model_name); reflexivity.
  - rewrite lookup_empty. reflexivity.
Qed.

Lemma is_registered_outcome self model_name w :
  utils.ModelRegistry.is_registered self model_name w
  = match w_all_models w !! utils.ModelRegistry.app_label self with
    | Some models => (Ok (bool_decide (is_Some (models !! lower model_name))), w)
    | None =>
        (Ok false,
         set_all_models (<[utils.ModelRegistry.app_label self := ∅]> (w_all_models w)) w)
    end.
Proof.
  unfold utils.ModelRegistry.is_registered, bind, all_models_getitem.
  destruct (w_all_models w !! utils.ModelRegistry.app_label self) as [models|];
    [reflexivity|].
  unfold ret. rewrite lookup_empty. reflexivity.
Qed.

Lemma registry_get_model_outcome self model_name w :
  utils.ModelRegistry.get_model self model_name w
  = (Ok (registered_class w (utils.ModelRegistry.app_label self) (lower model_name)), w).
Proof.
  unfold utils.ModelRegistry.get_model, try_except, bind, apps_get_model, registered_class.
  destruct (w_all_models w !! utils.ModelRegistry.app_label self) as [models|];
    [|reflexivity].
  destruct (models !! lower model_name); reflexivity.
Qed.

(** X3: once [unregister_model] has returned, the name is no longer
    registered: [is_registered] answers [False], [get_model] returns [None],
    and unregistering the name again raises [LookupError]. *)
Theorem X3_unregistered_name_is_gone
    (self : utils.ModelRegistry.t) (model_name : string) (w : world) (model : RuntimeModel) :
  registered_class w (utils.ModelRegistry.app_label self) (lower model_name) = Some model →
  ∃ w',
    utils.ModelRegistry.unregister_model self model_name w = (Ok tt, w')
    ∧ fst (utils.ModelRegistry.is_registered self model_name w') = Ok false
    ∧ fst (utils.ModelRegistry.get_model self model_name w') = Ok None
    ∧ fst (utils.ModelRegistry.unregister_model self model_name w')
      = Raise (LookupError ("'" ++ model_name ++ "' not found.")).
Proof.
  unfold registered_class. intros Hregistered.
  destruct (w_all_models w !! utils.ModelRegistry.app_label self) as [models|] eqn:Hlabel;
    [|discriminate].
  eexists. split.
  { rewrite unregister_model_outcome, Hlabel, Hregistered. reflexivity. }
  rewrite is_registered_outcome, registry_get_model_outcome, unregister_model_outcome.
  unfold registered_class. simpl.
  rewrite lookup_insert_eq, lookup_delete_eq. repeat split; reflexivity.
Qed.

Lemma X3_unregistered_witness :
  registered_class reference.crm_world reference.label (lower "Customer")
  = Some reference.customer_class
  ∧ ∃ w',
      utils.ModelRegistry.unregister_model
        (utils.ModelRegistry.__init__ reference.label) "Customer" reference.crm_world
      = (Ok tt, w')
      ∧ fst (utils.ModelRegistry.is_registered
               (utils.ModelRegistry.__init__ reference.label) "Customer" w') = Ok false.
Proof.
  split; [reflexivity|].
  destruct (X3_unregistered_name_is_gone (utils.ModelRegistry.__init__ reference.label)
              "Customer" reference.crm_world reference.customer_class eq_refl)
    as (w' & Hunregister & Hregistered & _).
  exists w'. split; assumption.
Defined.

(** X4: [unregister_model], whether it returns or raises, changes the
    registration of no other name and no other namespace; [is_registered]
    changes no registration at all (reading a namespace that has no mapping
    yet stores an empty one), and [get_model] changes nothing. *)
Theorem X4_registry_frame
    (self : utils.ModelRegistry.t) (model_name : string) (w : world) :
  (∀ app_label key,
     (app_label, key) ≠ (utils.ModelRegistry.app_label self, lower model_name) →
     registered_class (snd (utils.ModelRegistry.unregister_model self model_name w))
       app_label key
     = registered_class w app_label key)
  ∧ (∀ app_label key,
       registered_class (snd (utils.ModelRegistry.is_registered self model_name w))
         app_label key
       = registered_class w app_label key)
  ∧ snd (utils.ModelRegistry.get_model self model_name w) = w.
Proof.
  split; [|split].
  - intros app_label key Hother. rewrite unregister_model_outcome.
    destruct (w_all_models w !! utils.ModelRegistry.app_label self) as [models|] eqn:Hlabel.
    + destruct (models !! lower model_name) eqn:Hkey; [|reflexivity].
      unfold registered_class. simpl.
      destruct (decide (utils.ModelRegistry.app_label self = app_label)) as [<-|Hne].
      * rewrite lookup_insert_eq, Hlabel. apply lookup_delete_ne. congruence.
      * rewrite lookup_insert_ne by exact Hne. reflexivity.
    + unfold registered_class. simpl.
      destruct (decide (utils.ModelRegistry.app_label self = app_label)) as [<-|Hne].
      * rewrite lookup_insert_eq, Hlabel. apply lookup_empty.
      * rewrite lookup_insert_ne by exact Hne. reflexivity.
  - intros app_label key. rewrite is_registered_outcome.
    destruct (w_all_models w !! utils.ModelRegistry.app_label self) as [models|] eqn:Hlabel;
      [reflexivity|].
    unfold registered_class. simpl.
    destruct (decide (utils.ModelRegistry.app_label self = app_label)) as [<-|Hne].
    + rewrite lookup_insert_eq, Hlabel. apply lookup_empty.
    + rewrite lookup_insert_ne by exact Hne. reflexivity.
  - rewrite registry_get_model_outcome. reflexivity.
Qed.

Lemma X4_registry_frame_witness :
  registered_class
    (snd (utils.ModelRegistry.unregister_model
            (utils.ModelRegistry.__init__ reference.label) "Order" reference.crm_world))
    reference.label "customer"
  = Some reference.customer_class.
Proof.
  rewrite (proj1 (X4_registry_frame (utils.ModelRegistry.__init__ reference.label)
                    "Order" reference.crm_world) reference.label "customer");
    [reflexivity|discriminate].
Defined.

(** X5: [is_registered] and [get_model] agree, and both match the name
    without regard to case: [is_registered] answers [True] exactly when
    [get_model] returns a class, and two names with the same lower-case form
    get the same answers. *)
Theorem X5_registry_lookups_agree
    (self : utils.ModelRegistry.t) (model_name : string) (w : world) :
  (fst (utils.ModelRegistry.is_registered self model_name w) = Ok true
   ↔ ∃ model, fst (utils.ModelRegistry.get_model self model_name w) = Ok (Some model))
  ∧ (∀ other_name,
       lower other_name = lower model_name →
       fst (utils.ModelRegistry.is_registered self other_name w)
       = fst (utils.ModelRegistry.is_registered self model_name w)
       ∧ fst (utils.ModelRegistry.get_model self other_name w)
         = fst (utils.ModelRegistry.get_model self model_name w)).
Proof.
  split.
  - rewrite is_registered_outcome, registry_get_model_outcome. unfold registered_class.
    destruct (w_all_models w !! utils.ModelRegistry.app_label self) as [models|]; simpl.
    + destruct (models !! lower model_name) as [model|]; simpl.
      * split; [eauto|reflexivity].
      * split; [discriminate|intros [model H]; discriminate].
    + split; [discriminate|intros [model H]; discriminate].
  - intros other_name Hsame.
    rewrite !is_registered_outcome, !registry_get_model_outcome, Hsame.
    split; reflexivity.
Qed.

Lemma X5_registry_lookups_witness :
  lower "CUSTOMER" = lower "Customer"
  ∧ fst (utils.ModelRegistry.is_registered
           (utils.ModelRegistry.__init__ reference.label) "CUSTOMER" reference.crm_world)
    = fst (utils.ModelRegistry.is_registered
             (utils.ModelRegistry.__init__ reference.label) "Customer" reference.crm_world).
Proof.
  split; [reflexivity|].
  exact (proj1 (proj2 (X5_registry_lookups_agree
                         (utils.ModelRegistry.__init__ reference.label) "Customer"
                         reference.crm_world) "CUSTOMER" eq_refl)).
Defined.

(* ===================================================================== *)
(** ** Further properties of models.py                                    *)
(* ===================================================================== *)

(** *** Names *)

Lemma to_lower_to_upper c : to_lower (to_upper c) = to_lower c.
Proof. destruct c as [[] [] [] [] [] [] [] []]; reflexivity. Qed.

Lemma to_lower_to_lower c : to_lower (to_lower c) = to_lower c.
Proof. destruct c as [[] [] [] [] [] [] [] []]; reflexivity. Qed.

Lemma to_lower_is_space c : Ascii.eqb (to_lower c) " " = Ascii.eqb c " ".
Proof. destruct c as [[] [] [] [] [] [] [] []]; reflexivity. Qed.

Lemma lower_title_from previous_is_cased s :
  lower (title_from previous_is_cased s) = lower s.
Proof.
  revert previous_is_cased. induction s as [|c s IH]; intros b; [reflexivity|].
  simpl. unfold lower in *. simpl. rewrite IH.
  destruct b; [rewrite to_lower_to_lower|rewrite to_lower_to_upper]; reflexivity.
Qed.

Lemma lower_remove_space s : lower (remove_char " " s) = remove_char " " (lower s).
Proof.
  induction s as [|c s IH]; [reflexivity|].
  unfold lower in *. simpl. rewrite to_lower_is_space.
  destruct (Ascii.eqb c " "); simpl; rewrite IH; reflexivity.
Qed.

Lemma remove_char_removes old s c : In c (chars (remove_char old s)) → c ≠ old.
Proof.
  induction s as [|a s IH]; simpl; [tauto|].
  destruct (Ascii.eqb_spec a old) as [_|Ha]; [exact IH|].
  simpl. intros [<-|Hc]; [exact Ha|exact (IH Hc)].
Qed.

Lemma lower_get_model_name name :
  lower (ModelSchema.get_model_name name) = remove_char " " (lower name).
Proof.
  unfold ModelSchema.get_model_name, title.
  rewrite lower_remove_space, lower_title_from. reflexivity.
Qed.

(** X6: the class name of a model definition holds no space, and its
    lower-case form, the key of the registry, is the lower-cased name with
    the spaces taken out.  So two definitions whose names differ only in
    case and spaces are looked up under one key and get the same registered
    class. *)
Theorem X6_model_names_collide_modulo_case_and_spaces :
  (∀ name c, In c (chars (ModelSchema.get_model_name name)) → c ≠ " "%char)
  ∧ (∀ name, lower (ModelSchema.get_model_name name) = remove_char " " (lower name))
  ∧ (∀ self other w,
       remove_char " " (lower (ModelSchema.name self))
       = remove_char " " (lower (ModelSchema.name other)) →
       ModelSchema._registry self = ModelSchema._registry other →
       ModelSchema.get_registered_model self w = ModelSchema.get_registered_model other w).
Proof.
  split; [|split].
  - intros name c. unfold ModelSchema.get_model_name. apply remove_char_removes.
  - exact lower_get_model_name.
  - intros self other w Hnames Hregistry.
    unfold ModelSchema.get_registered_model, ModelSchema.model_name,
      ModelSchema.get_model_name, title.
    rewrite !registry_get_model_outcome, Hregistry.
    rewrite !lower_remove_space, !lower_title_from, Hnames. reflexivity.
Qed.

Lemma X6_model_names_witness :
  remove_char " " (lower (ModelSchema.name reference.customer))
  = remove_char " " (lower (ModelSchema.name (ModelSchema.set_name "cus TOMER"
                                                reference.customer)))
  ∧ ModelSchema.get_registered_model reference.customer reference.crm_world
    = ModelSchema.get_registered_model
        (ModelSchema.set_name "cus TOMER" reference.customer) reference.crm_world.
Proof.
  split; [reflexivity|].
  exact (proj2 (proj2 X6_model_names_collide_modulo_case_and_spaces)
           reference.customer (ModelSchema.set_name "cus TOMER" reference.customer)
           reference.crm_world eq_refl eq_refl).
Defined.

(** X7: whatever [slugify] returns, the column name of a field definition
    holds no hyphen, and neither does the part of a default table name that
    follows the namespace and its underscore. *)
Theorem X7_physical_names_hold_no_hyphen (env : Collaborators) :
  (∀ self c, In c (chars (FieldSchema.db_column env self)) → c ≠ "-"%char)
  ∧ (∀ self,
       ∃ safe_name,
         ModelSchema._default_db_table_name env self
         = ModelSchema.app_label env ++ "_" ++ safe_name
         ∧ ∀ c, In c (chars safe_name) → c ≠ "-"%char).
Proof.
  split.
  - intros self c. unfold FieldSchema.db_column. apply replace_removes. discriminate.
  - intros self. eexists. split; [reflexivity|].
    intros c. apply replace_removes. discriminate.
Qed.

(** *** Saving and deleting a model definition *)

Lemma model_save_outcome env self w :
  ModelSchema.save env (self, w)
  = match orm_save_model env (ModelSchema.row_of self) (w_store w) with
    | (inr what, store) => (Raise (ExternalError what), (self, set_store store w))
    | (inl new_pk, store) =>
        let saved := ModelSchema.set_pk (Some new_pk) self in
        match ModelSchema._schema_editor self with
        | None =>
            (Ok tt, (ModelSchema.set_initial_name (ModelSchema.name self) saved,
                     set_store store w))
        | Some editor =>
            match factory_get_model env (ModelSchema.row_of saved) store (w_all_models w) with
            | (inr what, classes) =>
                (Raise (ExternalError what),
                 (saved, set_all_models classes (set_store store w)))
            | (inl model, classes) =>
                match update_table env editor model (w_database w) with
                | (inr what, db) =>
                    (Raise (ExternalError what),
                     (saved, set_database db (set_all_models classes (set_store store w))))
                | (inl editor', db) =>
                    (Ok tt,
                     (ModelSchema.set_initial_name (ModelSchema.name self)
                        (ModelSchema.set_schema_editor (Some editor') saved),
                      set_database db (set_all_models classes (set_store store w))))
                end
            end
        end
    end.
Proof.
  unfold ModelSchema.save, ModelSchema.super_save, ModelSchema.factory_get,
    bind, gets, in_world, call, update_self, modify, ret.
  cbv zeta. cbn [fst snd].
  destruct (orm_save_model env (ModelSchema.row_of self) (w_store w)) as [[new_pk|what] store];
    cbn [fst snd ModelSchema._schema_editor ModelSchema.set_pk]; [|reflexivity].
  destruct (ModelSchema._schema_editor self) as [editor|]; cbn [fst snd w_store set_store
    w_all_models w_database set_all_models]; [|reflexivity].
  destruct (factory_get_model env _ store (w_all_models w)) as [[model|what] classes];
    cbn [fst snd w_store set_store w_all_models w_database set_all_models]; [|reflexivity].
  destruct (update_table env editor model (w_database w)) as [[editor'|what] db];
    reflexivity.
Qed.

Lemma model_delete_outcome_unmanaged env self w :
  ModelSchema._schema_editor self = None →
  ModelSchema.delete env (self, w)
  = match factory_destroy_model env (ModelSchema.row_of self) (w_all_models w) with
    | (inr what, classes) => (Raise (ExternalError what), (self, set_all_models classes w))
    | (inl _, classes) =>
        match orm_delete_model env (ModelSchema.row_of self) (w_store w) with
        | (inr what, store) =>
            (Raise (ExternalError what),
             (self, set_store store (set_all_models classes w)))
        | (inl _, store) =>
            (Ok tt, (ModelSchema.set_pk None self,
                     set_store store (set_all_models classes w)))
        end
    end.
Proof.
  intros Hed.
  unfold ModelSchema.delete, ModelSchema.super_delete, ModelSchema.factory_destroy,
    bind, gets, in_world, call, update_self, modify, ret.
  cbv zeta. cbn [fst snd]. rewrite Hed.
  cbn [fst snd w_store set_store w_all_models w_database set_all_models].
  destruct (factory_destroy_model env (ModelSchema.row_of self) (w_all_models w))
    as [[[]|what] classes];
    cbn [fst snd w_store set_store w_all_models w_database set_all_models]; [|reflexivity].
  destruct (orm_delete_model env (ModelSchema.row_of self) (w_store w)) as [[[]|what] store];
    reflexivity.
Qed.

Lemma model_delete_outcome_managed env self w editor :
  ModelSchema._schema_editor self = Some editor →
  ModelSchema.delete env (self, w)
  = match factory_get_model env (ModelSchema.row_of self) (w_store w) (w_all_models w) with
    | (inr what, classes) => (Raise (ExternalError what), (self, set_all_models classes w))
    | (inl model, classes) =>
        match drop_table env editor model (w_database w) with
        | (inr what, db) =>
            (Raise (ExternalError what),
             (self, set_database db (set_all_models classes w)))
        | (inl editor', db) =>
            let dropped := ModelSchema.set_schema_editor (Some editor') self in
            match factory_destroy_model env (ModelSchema.row_of self) classes with
            | (inr what, classes') =>
                (Raise (ExternalError what),
                 (dropped, set_all_models classes' (set_database db w)))
            | (inl _, classes') =>
                match orm_delete_model env (ModelSchema.row_of self) (w_store w) with
                | (inr what, store) =>
                    (Raise (ExternalError what),
                     (dropped,
                      set_store store (set_all_models classes' (set_database db w))))
                | (inl _, store) =>
                    (Ok tt,
                     (ModelSchema.set_pk None dropped,
                      set_store store (set_all_models classes' (set_database db w))))
                end
            end
        end
    end.
Proof.
  intros Hed.
  unfold ModelSchema.delete, ModelSchema.super_delete, ModelSchema.factory_destroy,
    ModelSchema.as_model, ModelSchema.factory_get,
    bind, gets, in_world, call, update_self, modify, ret.
  cbv zeta. cbn [fst snd]. rewrite Hed.
  cbn [fst snd w_store set_store w_all_models w_database set_all_models].
  destruct (factory_get_model env (ModelSchema.row_of self) (w_store w) (w_all_models w))
    as [[model|what] classes];
    cbn [fst snd w_store set_store w_all_models w_database set_all_models set_database];
    [|reflexivity].
  destruct (drop_table env editor model (w_database w)) as [[editor'|what] db];
    cbn [fst snd w_store set_store w_all_models w_database set_all_models set_database];
    [|reflexivity].
  destruct (factory_destroy_model env (ModelSchema.row_of self) classes)
    as [[[]|what] classes'];
    cbn [fst snd w_store set_store w_all_models w_database set_all_models set_database];
    [|reflexivity].
  destruct (orm_delete_model env _ (w_store w)) as [[[]|what] store]; reflexivity.
Qed.

(** X8: [ModelSchema.save] never changes the name; when it returns, the
    remembered name is the current name; when it raises, the remembered
    name is the one from before the call. *)
Theorem X8_model_save_refreshes_initial_name
    (env : Collaborators) (self : ModelSchema.t) (w : world) :
  ModelSchema.name (fst (snd (ModelSchema.save env (self, w)))) = ModelSchema.name self
  ∧ (fst (ModelSchema.save env (self, w)) = Ok tt →
     ModelSchema._initial_name (fst (snd (ModelSchema.save env (self, w))))
     = ModelSchema.name self)
  ∧ (∀ e, fst (ModelSchema.save env (self, w)) = Raise e →
          ModelSchema._initial_name (fst (snd (ModelSchema.save env (self, w))))
          = ModelSchema._initial_name self).
Proof.
  rewrite model_save_outcome.
  destruct (orm_save_model env _ _) as [[new_pk|what] store]; cbv zeta;
    [|repeat split; try reflexivity; discriminate].
  destruct (ModelSchema._schema_editor self) as [editor|];
    [|repeat split; try reflexivity; discriminate].
  destruct (factory_get_model env _ _ _) as [[model|what] classes];
    [|repeat split; try reflexivity; discriminate].
  destruct (update_table env _ _ _) as [[editor'|what] db];
    repeat split; try reflexivity; discriminate.
Qed.

(** X9: [ModelSchema.save] writes the definition row first and does not
    undo it.  When the ORM fails, the factory and the schema editor are not
    reached: only the definition tables may differ.  When the ORM has
    written the row and the schema editor then fails, [save] raises with
    the row written, the primary key assigned and the remembered name not
    refreshed. *)
Theorem X9_model_save_is_not_atomic
    (env : Collaborators) (self : ModelSchema.t) (w : world) :
  (∀ what store,
     orm_save_model env (ModelSchema.row_of self) (w_store w) = (inr what, store) →
     ModelSchema.save env (self, w)
     = (Raise (ExternalError what), (self, set_store store w)))
  ∧ (∀ new_pk store editor model classes what db,
       orm_save_model env (ModelSchema.row_of self) (w_store w) = (inl new_pk, store) →
       ModelSchema._schema_editor self = Some editor →
       factory_get_model env (ModelSchema.row_of (ModelSchema.set_pk (Some new_pk) self))
         store (w_all_models w) = (inl model, classes) →
       update_table env editor model (w_database w) = (inr what, db) →
       fst (ModelSchema.save env (self, w)) = Raise (ExternalError what)
       ∧ w_store (snd (snd (ModelSchema.save env (self, w)))) = store
       ∧ ModelSchema.pk (fst (snd (ModelSchema.save env (self, w)))) = Some new_pk
       ∧ ModelSchema._initial_name (fst (snd (ModelSchema.save env (self, w))))
         = ModelSchema._initial_name self).
Proof.
  split.
  - intros what store Horm. rewrite model_save_outcome, Horm. reflexivity.
  - intros new_pk store editor model classes what db Horm Hed Hfactory Hddl.
    rewrite model_save_outcome, Horm. cbv zeta. rewrite Hed, Hfactory, Hddl.
    repeat split; reflexivity.
Qed.

Lemma X9_model_save_witness :
  fst (ModelSchema.save reference.with_read_only_store
         (reference.customer, reference.empty_world))
  = Raise (ExternalError "attempt to write a readonly database")
  ∧ w_database (snd (snd (ModelSchema.save reference.with_read_only_store
                            (reference.customer, reference.empty_world))))
    = w_database reference.empty_world
  ∧ fst (ModelSchema.save reference.without_ddl_rights
           (reference.customer, reference.empty_world))
    = Raise (ExternalError "permission denied")
  ∧ st_models (w_store (snd (snd (ModelSchema.save reference.without_ddl_rights
                                    (reference.customer, reference.empty_world))))) !! 1
    = Some {| mr_pk := Some 1; mr_name := "Customer"; mr_db_name := "default";
              mr_managed := true; mr_db_table_name := None |}.
Proof.
  destruct (X9_model_save_is_not_atomic reference.with_read_only_store
              reference.customer reference.empty_world) as [Horm _].
  destruct (X9_model_save_is_not_atomic reference.without_ddl_rights
              reference.customer reference.empty_world) as [_ Hddl].
  rewrite (Horm _ _ eq_refl).
  split; [reflexivity|]. split; [reflexivity|].
  edestruct Hddl as (Hraise & Hstore & _); try reflexivity.
  rewrite Hraise, Hstore. split; reflexivity.
Defined.

(** X10: [ModelSchema.delete] deletes the definition row last.  When
    dropping the table fails, the definition (instance and row) is as
    before.  When the table has been dropped and the factory then fails to
    destroy the class, [delete] raises with the table dropped and the row
    still stored. *)
Theorem X10_model_delete_removes_row_last
    (env : Collaborators) (self : ModelSchema.t) (w : world)
    (editor : ModelSchemaEditor) (model : RuntimeModel)
    (classes : gmap string (gmap string RuntimeModel)) :
  ModelSchema._schema_editor self = Some editor →
  factory_get_model env (ModelSchema.row_of self) (w_store w) (w_all_models w)
  = (inl model, classes) →
  (∀ what db,
     drop_table env editor model (w_database w) = (inr what, db) →
     fst (ModelSchema.delete env (self, w)) = Raise (ExternalError what)
     ∧ fst (snd (ModelSchema.delete env (self, w))) = self
     ∧ w_store (snd (snd (ModelSchema.delete env (self, w)))) = w_store w)
  ∧ (∀ editor' db what classes',
       drop_table env editor model (w_database w) = (inl editor', db) →
       factory_destroy_model env (ModelSchema.row_of self) classes = (inr what, classes') →
       fst (ModelSchema.delete env (self, w)) = Raise (ExternalError what)
       ∧ w_database (snd (snd (ModelSchema.delete env (self, w)))) = db
       ∧ w_store (snd (snd (ModelSchema.delete env (self, w)))) = w_store w
       ∧ ModelSchema.pk (fst (snd (ModelSchema.delete env (self, w)))) = ModelSchema.pk self).
Proof.
  intros Hed Hfactory.
  rewrite (model_delete_outcome_managed env self w editor Hed), Hfactory.
  split.
  - intros what db Hdrop. rewrite Hdrop. repeat split; reflexivity.
  - intros editor' db what classes' Hdrop Hdestroy. rewrite Hdrop. cbv zeta.
    rewrite Hdestroy. repeat split; reflexivity.
Qed.

Lemma X10_model_delete_witness :
  ModelSchema._schema_editor reference.customer
  = Some {| mse_initial_model := None; mse_db_name := "default" |}
  ∧ fst (ModelSchema.delete reference.without_ddl_rights
           (reference.customer, reference.crm_world))
    = Raise (ExternalError "permission denied")
  ∧ w_store (snd (snd (ModelSchema.delete reference.without_ddl_rights
                         (reference.customer, reference.crm_world))))
    = w_store reference.crm_world.
Proof.
  split; [reflexivity|].
  edestruct (X10_model_delete_removes_row_last reference.without_ddl_rights
               reference.customer reference.crm_world) as [Hdrop _];
    [reflexivity|reflexivity|].
  edestruct Hdrop as (Hraise & _ & Hstore); [reflexivity|].
  split; assumption.
Defined.

(** *** Construction and lookups *)

(** X11: constructing a model definition never raises and changes nothing,
    whether or not a class is registered for it: the [LookupError] of the
    registry is swallowed.  The instance holds the column values, remembers
    the name, and, when managed, holds an editor that remembers the class
    registered under the lower-cased class name, [get_model_name] of the
    name ([None] when there is none); an unmanaged one holds no editor. *)
Theorem X11_model_construction
    (env : Collaborators) (row : ModelRow) (w : world) :
  ∃ self,
    ModelSchema.__init__ env row w = (Ok self, w)
    ∧ ModelSchema.row_of self = row
    ∧ ModelSchema._initial_name self = mr_name row
    ∧ ModelSchema._schema_editor self
      = if mr_managed row
        then Some {| mse_initial_model :=
                       registered_class w (ModelSchema.app_label env)
                         (lower (ModelSchema.get_model_name (mr_name row)));
                     mse_db_name := mr_db_name row |}
        else None.
Proof.
  unfold ModelSchema.__init__, bind. rewrite registry_get_model_outcome.
  eexists. split; [reflexivity|]. simpl.
  split; [destruct row; reflexivity|]. split; reflexivity.
Qed.

Lemma meta_get_field_caught {St} model name (s : St) :
  try_except (do f <- meta_get_field model name; ret (Some f))
    (fun e => match e with FieldDoesNotExist _ => Some (ret None) | _ => None end) s
  = (Ok (field_named model name), s).
Proof.
  unfold try_except, bind, meta_get_field, field_named.
  destruct (List.find _ _); reflexivity.
Qed.

Lemma factory_get_outcome env owner w :
  ModelSchema.factory_get env owner w
  = match factory_get_model env (ModelSchema.row_of owner) (w_store w) (w_all_models w) with
    | (inl model, classes) => (Ok model, set_all_models classes w)
    | (inr what, classes) => (Raise (ExternalError what), set_all_models classes w)
    end.
Proof.
  unfold ModelSchema.factory_get, bind, gets, call.
  destruct (factory_get_model env _ _ _) as [[model|what] classes]; reflexivity.
Qed.

Lemma _get_model_with_field_outcome env self w :
  FieldSchema._get_model_with_field env self w
  = match factory_get_model env (ModelSchema.row_of (FieldSchema.model_schema self))
            (w_store w) (w_all_models w) with
    | (inl model, classes) =>
        (Ok (model, field_named model (FieldSchema.db_column env self)),
         set_all_models classes w)
    | (inr what, classes) => (Raise (ExternalError what), set_all_models classes w)
    end.
Proof.
  unfold FieldSchema._get_model_with_field, ModelSchema.as_model.
  unfold bind at 1. rewrite factory_get_outcome.
  destruct (factory_get_model env _ _ _) as [[model|what] classes]; [|reflexivity].
  unfold bind at 1. rewrite meta_get_field_caught. reflexivity.
Qed.

(** X12: constructing a field definition to which no owner was given
    raises at the first read of [self.model_schema] and changes nothing.
    With the owner given as an instance, construction returns and changes
    nothing: the [LookupError] of the registry and the [FieldDoesNotExist]
    of the class are swallowed.  The remembered null state is then the
    current one; the remembered field is the field called [name] of the
    class registered for the owner, and [None] when no class is registered,
    when the name is empty or when the class has no such field; a managed
    owner gives an editor holding that field, an unmanaged one gives no
    editor. *)
Theorem X12_field_construction
    (pk : option nat) (name : string) (class_name : string)
    (kwargs : gmap string pyvalue) (w : world) :
  FieldSchema.construct pk name None class_name kwargs w
  = (Raise (ExternalError "FieldSchema has no model_schema."), w)
  ∧ ∀ owner,
      ∃ self,
        FieldSchema.construct pk name (Some owner) class_name kwargs w = (Ok self, w)
        ∧ FieldSchema.name self = name
        ∧ FieldSchema.kwargs self = kwargs
        ∧ FieldSchema.model_schema self = owner
        ∧ FieldSchema._initial_name self = name
        ∧ FieldSchema._initial_null self = FieldSchema.null self
        ∧ FieldSchema._initial_field self
          = match registered_class w
                    (utils.ModelRegistry.app_label (ModelSchema._registry owner))
                    (lower (ModelSchema.model_name owner)) with
            | Some model => if str_truthy name then field_named model name else None
            | None => None
            end
        ∧ FieldSchema._schema_editor self
          = if ModelSchema.managed owner
            then Some {| fse_initial_field := FieldSchema._initial_field self;
                         fse_db_name := ModelSchema.db_name owner |}
            else None.
Proof.
  split; [reflexivity|]. intros owner.
  unfold FieldSchema.construct, FieldSchema.__init__,
    FieldSchema.get_registered_model_field, ModelSchema.get_registered_model.
  unfold bind at 1 2. rewrite registry_get_model_outcome.
  cbn [FieldSchema.model_schema FieldSchema.set_initial_null FieldSchema.set_initial_name
       FieldSchema.name].
  destruct (registered_class w _ _) as [model|]; cbn [fst snd].
  - destruct (str_truthy name).
    + rewrite meta_get_field_caught. eexists. split; [reflexivity|].
      repeat split; reflexivity.
    + eexists. split; [reflexivity|]. repeat split; reflexivity.
  - eexists. split; [reflexivity|]. repeat split; reflexivity.
Qed.

(** X13: [_get_model_with_field] returns the class the factory hands out
    together with its field called by the column name of the definition,
    [None] when the class has no such field: [FieldDoesNotExist] never
    leaves it.  It raises only when the factory does, and changes nothing
    but the registry. *)
Theorem X13_get_model_with_field
    (env : Collaborators) (self : FieldSchema.t) (w : world) :
  (∀ model classes,
     factory_get_model env (ModelSchema.row_of (FieldSchema.model_schema self))
       (w_store w) (w_all_models w) = (inl model, classes) →
     FieldSchema._get_model_with_field env self w
     = (Ok (model, field_named model (FieldSchema.db_column env self)),
        set_all_models classes w))
  ∧ raises_nothing_of_its_own (fst (FieldSchema._get_model_with_field env self w))
  ∧ w_store (snd (FieldSchema._get_model_with_field env self w)) = w_store w
  ∧ w_database (snd (FieldSchema._get_model_with_field env self w)) = w_database w.
Proof.
  rewrite _get_model_with_field_outcome.
  destruct (factory_get_model env _ _ _) as [[model|what] classes].
  - split; [intros ? ? [= <- <-]; reflexivity|]. repeat split.
  - split; [intros ? ? [=]|]. repeat split.
Qed.

Lemma X13_get_model_with_field_witness :
  factory_get_model reference.collaborators
    (ModelSchema.row_of (FieldSchema.model_schema reference.email))
    (w_store reference.crm_world) (w_all_models reference.crm_world)
  = (inl {| rm_name := "Customer"; rm_fields := [] |},
     <[reference.label := {[ "customer" := {| rm_name := "Customer"; rm_fields := [] |} ]}]>
       (w_all_models reference.crm_world))
  ∧ fst (FieldSchema._get_model_with_field reference.collaborators reference.email
           reference.crm_world)
    = Ok ({| rm_name := "Customer"; rm_fields := [] |}, None).
Proof.
  assert (factory_get_model reference.collaborators
            (ModelSchema.row_of (FieldSchema.model_schema reference.email))
            (w_store reference.crm_world) (w_all_models reference.crm_world)
          = (inl {| rm_name := "Customer"; rm_fields := [] |},
             <[reference.label :=
                 {[ "customer" := {| rm_name := "Customer"; rm_fields := [] |} ]}]>
               (w_all_models reference.crm_world))) as Hfactory.
  { vm_compute. reflexivity. }
  split; [exact Hfactory|].
  rewrite (proj1 (X13_get_model_with_field reference.collaborators reference.email
                    reference.crm_world) _ _ Hfactory).
  reflexivity.
Defined.

(** *** Saving and deleting a field definition *)

Lemma field_save_outcome env self w :
  FieldSchema.validate (self, w) = (Ok tt, (self, w)) →
  FieldSchema.save env (self, w)
  = let prepared := prepared_for_save self in
    match orm_save_field env (FieldSchema.row_of prepared) (w_store w) with
    | (inr what, store) => (Raise (ExternalError what), (prepared, set_store store w))
    | (inl new_pk, store) =>
        let saved := FieldSchema.set_pk (Some new_pk) prepared in
        match factory_get_model env (ModelSchema.row_of (FieldSchema.model_schema self))
                store (w_all_models w) with
        | (inr what, classes) =>
            (Raise (ExternalError what),
             (saved, set_all_models classes (set_store store w)))
        | (inl model, classes) =>
            match FieldSchema._schema_editor self with
            | None => (Ok tt, (saved, set_all_models classes (set_store store w)))
            | Some editor =>
                match update_column env editor model
                        (field_named model (FieldSchema.db_column env self))
                        (w_database w) with
                | (inr what, db) =>
                    (Raise (ExternalError what),
                     (saved, set_database db (set_all_models classes (set_store store w))))
                | (inl editor', db) =>
                    (Ok tt,
                     (FieldSchema.set_schema_editor (Some editor') saved,
                      set_database db (set_all_models classes (set_store store w))))
                end
            end
        end
    end.
Proof.
  intros Hv. unfold FieldSchema.save. unfold bind at 1. rewrite Hv.
  unfold FieldSchema.super_save. fold (prepared_for_save).
  unfold bind at 1 2. unfold update_self at 1. unfold modify.
  change (match FieldKwargsJSON.get_prep_value (Some (FieldSchema.kwargs self)) with
          | Some prepared => FieldSchema.set_kwargs prepared self
          | None => self
          end) with (prepared_for_save self).
  cbn [fst snd]. unfold bind at 1. unfold gets at 1. cbn [fst snd].
  unfold bind at 1. unfold in_world at 1. unfold call at 1. cbn [fst snd].
  destruct (orm_save_field env (FieldSchema.row_of (prepared_for_save self)) (w_store w))
    as [[new_pk|what] store]; cbn [fst snd]; [|reflexivity].
  unfold update_self at 1. unfold modify. cbn [fst snd].
  unfold bind at 1. unfold gets at 1. cbn [fst snd].
  unfold bind at 1. unfold in_world at 1. cbn [fst snd].
  rewrite _get_model_with_field_outcome.
  cbn [w_store w_all_models set_store].
  assert (FieldSchema.model_schema (FieldSchema.set_pk (Some new_pk) (prepared_for_save self))
          = FieldSchema.model_schema self) as ->.
  { unfold prepared_for_save. destruct (FieldKwargsJSON.get_prep_value _); reflexivity. }
  assert (FieldSchema.db_column env (FieldSchema.set_pk (Some new_pk) (prepared_for_save self))
          = FieldSchema.db_column env self) as ->.
  { unfold prepared_for_save. destruct (FieldKwargsJSON.get_prep_value _); reflexivity. }
  assert (FieldSchema._schema_editor
            (FieldSchema.set_pk (Some new_pk) (prepared_for_save self))
          = FieldSchema._schema_editor self) as ->.
  { unfold prepared_for_save. destruct (FieldKwargsJSON.get_prep_value _); reflexivity. }
  destruct (factory_get_model env _ store (w_all_models w)) as [[model|what] classes];
    cbn [fst snd]; [|reflexivity].
  destruct (FieldSchema._schema_editor self) as [editor|]; [|reflexivity].
  unfold bind, in_world, call, update_self, modify.
  cbn [fst snd w_database set_all_models set_store].
  destruct (update_column env editor model _ (w_database w)) as [[editor'|what] db];
    reflexivity.
Qed.

Lemma field_delete_outcome env self w :
  FieldSchema.delete env (self, w)
  = match factory_get_model env (ModelSchema.row_of (FieldSchema.model_schema self))
            (w_store w) (w_all_models w) with
    | (inr what, classes) => (Raise (ExternalError what), (self, set_all_models classes w))
    | (inl model, classes) =>
        match FieldSchema._schema_editor self with
        | None =>
            match orm_delete_field env (FieldSchema.row_of self) (w_store w) with
            | (inr what, store) =>
                (Raise (ExternalError what),
                 (self, set_store store (set_all_models classes w)))
            | (inl _, store) =>
                (Ok tt, (FieldSchema.set_pk None self,
                         set_store store (set_all_models classes w)))
            end
        | Some editor =>
            match drop_column env editor model
                    (field_named model (FieldSchema.db_column env self)) (w_database w) with
            | (inr what, db) =>
                (Raise (ExternalError what),
                 (self, set_database db (set_all_models classes w)))
            | (inl editor', db) =>
                let dropped := FieldSchema.set_schema_editor (Some editor') self in
                match orm_delete_field env (FieldSchema.row_of self) (w_store w) with
                | (inr what, store) =>
                    (Raise (ExternalError what),
                     (dropped, set_store store (set_database db (set_all_models classes w))))
                | (inl _, store) =>
                    (Ok tt,
                     (FieldSchema.set_pk None dropped,
                      set_store store (set_database db (set_all_models classes w))))
                end
            end
        end
    end.
Proof.
  unfold FieldSchema.delete, FieldSchema.super_delete.
  unfold bind at 1. unfold gets at 1. cbn [fst snd].
  unfold bind at 1. unfold in_world at 1. cbn [fst snd].
  rewrite _get_model_with_field_outcome.
  destruct (factory_get_model env _ (w_store w) (w_all_models w)) as [[model|what] classes];
    cbn [fst snd]; [|reflexivity].
  destruct (FieldSchema._schema_editor self) as [editor|].
  - unfold bind, in_world, call, update_self, modify, gets.
    cbn [fst snd w_database w_store set_all_models set_database].
    destruct (drop_column env editor model _ (w_database w)) as [[editor'|what] db];
      cbn [fst snd w_database w_store set_all_models set_database]; [|reflexivity].
    destruct (orm_delete_field env _ (w_store w)) as [[[]|what] store]; reflexivity.
  - unfold bind, in_world, call, update_self, modify, gets, ret.
    cbn [fst snd w_database w_store set_all_models set_database].
    destruct (orm_delete_field env _ (w_store w)) as [[[]|what] store]; reflexivity.
Qed.

(** X14: once validation has passed, [FieldSchema.save] writes the
    definition row first and does not undo it.  When the ORM fails, the
    factory and the schema editor are not reached: the registry and the
    physical schema are as before.  When the row has been written and the
    schema editor then fails, [save] raises with the row written and the
    primary key assigned. *)
Theorem X14_field_save_is_not_atomic
    (env : Collaborators) (self : FieldSchema.t) (w : world) :
  FieldSchema.validate (self, w) = (Ok tt, (self, w)) →
  (∀ what store,
     orm_save_field env (FieldSchema.row_of (prepared_for_save self)) (w_store w)
     = (inr what, store) →
     fst (FieldSchema.save env (self, w)) = Raise (ExternalError what)
     ∧ w_all_models (snd (snd (FieldSchema.save env (self, w)))) = w_all_models w
     ∧ w_database (snd (snd (FieldSchema.save env (self, w)))) = w_database w)
  ∧ (∀ new_pk store editor model classes what db,
       orm_save_field env (FieldSchema.row_of (prepared_for_save self)) (w_store w)
       = (inl new_pk, store) →
       FieldSchema._schema_editor self = Some editor →
       factory_get_model env (ModelSchema.row_of (FieldSchema.model_schema self))
         store (w_all_models w) = (inl model, classes) →
       update_column env editor model (field_named model (FieldSchema.db_column env self))
         (w_database w) = (inr what, db) →
       fst (FieldSchema.save env (self, w)) = Raise (ExternalError what)
       ∧ w_store (snd (snd (FieldSchema.save env (self, w)))) = store
       ∧ FieldSchema.pk (fst (snd (FieldSchema.save env (self, w)))) = Some new_pk).
Proof.
  intros Hv. rewrite (field_save_outcome env self w Hv). cbv zeta. split.
  - intros what store Horm. rewrite Horm. repeat split; reflexivity.
  - intros new_pk store editor model classes what db Horm Hed Hfactory Hddl.
    rewrite Horm, Hfactory, Hed, Hddl. repeat split; reflexivity.
Qed.

Lemma X14_field_save_witness :
  FieldSchema.validate (reference.email, reference.empty_world)
  = (Ok tt, (reference.email, reference.empty_world))
  ∧ fst (FieldSchema.save reference.with_read_only_store
           (reference.email, reference.empty_world))
    = Raise (ExternalError "attempt to write a readonly database")
  ∧ w_database (snd (snd (FieldSchema.save reference.with_read_only_store
                            (reference.email, reference.empty_world))))
    = w_database reference.empty_world
  ∧ fst (FieldSchema.save reference.without_ddl_rights
           (reference.email, reference.empty_world))
    = Raise (ExternalError "permission denied")
  ∧ FieldSchema.pk (fst (snd (FieldSchema.save reference.without_ddl_rights
                                (reference.email, reference.empty_world))))
    = Some 1.
Proof.
  split; [reflexivity|].
  destruct (X14_field_save_is_not_atomic reference.with_read_only_store
              reference.email reference.empty_world eq_refl) as [Horm _].
  destruct (X14_field_save_is_not_atomic reference.without_ddl_rights
              reference.email reference.empty_world eq_refl) as [_ Hddl].
  edestruct Horm as (Hraise & _ & Hdb); [reflexivity|].
  split; [exact Hraise|]. split; [exact Hdb|].
  edestruct Hddl as (Hraise' & _ & Hpk); try (vm_compute; reflexivity).
  split; [exact Hraise'|exact Hpk].
Defined.

(** X15: [FieldSchema.delete] deletes the definition row last.  When
    dropping the column fails, the instance and the definition rows are as
    before; for a definition without an editor, no column is dropped and
    the row is deleted as soon as the factory has handed out the class. *)
Theorem X15_field_delete_removes_row_last
    (env : Collaborators) (self : FieldSchema.t) (w : world)
    (model : RuntimeModel) (classes : gmap string (gmap string RuntimeModel)) :
  factory_get_model env (ModelSchema.row_of (FieldSchema.model_schema self))
    (w_store w) (w_all_models w) = (inl model, classes) →
  (∀ editor what db,
     FieldSchema._schema_editor self = Some editor →
     drop_column env editor model (field_named model (FieldSchema.db_column env self))
       (w_database w) = (inr what, db) →
     fst (FieldSchema.delete env (self, w)) = Raise (ExternalError what)
     ∧ fst (snd (FieldSchema.delete env (self, w))) = self
     ∧ w_store (snd (snd (FieldSchema.delete env (self, w)))) = w_store w)
  ∧ (∀ store,
       FieldSchema._schema_editor self = None →
       orm_delete_field env (FieldSchema.row_of self) (w_store w) = (inl tt, store) →
       FieldSchema.delete env (self, w)
       = (Ok tt, (FieldSchema.set_pk None self, set_store store (set_all_models classes w)))).
Proof.
  intros Hfactory. rewrite field_delete_outcome, Hfactory. split.
  - intros editor what db Hed Hdrop. rewrite Hed, Hdrop. repeat split; reflexivity.
  - intros store Hed Horm. rewrite Hed, Horm. reflexivity.
Qed.

Lemma X15_field_delete_witness :
  factory_get_model reference.without_ddl_rights
    (ModelSchema.row_of (FieldSchema.model_schema reference.email))
    (w_store reference.empty_world) (w_all_models reference.empty_world)
  = reference.get_model (ModelSchema.row_of reference.customer)
      (w_store reference.empty_world) (w_all_models reference.empty_world)
  ∧ fst (FieldSchema.delete reference.without_ddl_rights
           (reference.email, reference.empty_world))
    = Raise (ExternalError "permission denied")
  ∧ w_store (snd (snd (FieldSchema.delete reference.without_ddl_rights
                         (reference.email, reference.empty_world))))
    = w_store reference.empty_world.
Proof.
  split; [reflexivity|].
  edestruct (X15_field_delete_removes_row_last reference.without_ddl_rights
               reference.email reference.empty_world) as [Hdrop _]; [reflexivity|].
  edestruct Hdrop as (Hraise & _ & Hstore); [reflexivity|reflexivity|].
  split; assumption.
Defined.

(** *** The on-delete conversions, further *)

(** X16: a stored options mapping whose [on_delete] is the name of one of
    the behaviours of [django.db.models] is resolved to the mapping holding
    that behaviour, and preparing the result for storage gives the stored
    mapping back. *)
Theorem X16_stored_token_round_trip
    (env : Collaborators) (d : gmap string pyvalue) (p : on_delete_policy) :
  d !! "on_delete" = Some (VStr (FieldKwargsJSON.policy_name p)) →
  FieldKwargsJSON.from_db_value env (Some d)
  = Ok (Some (<["on_delete" := VCallable (Policy p)]> d))
  ∧ FieldKwargsJSON.to_python env (Some d)
    = Ok (Some (<["on_delete" := VCallable (Policy p)]> d))
  ∧ FieldKwargsJSON.get_prep_value (Some (<["on_delete" := VCallable (Policy p)]> d))
    = Some d.
Proof.
  intros Htoken.
  unfold FieldKwargsJSON.from_db_value, FieldKwargsJSON.to_python,
    FieldKwargsJSON.get_prep_value, FieldKwargsJSON._convert_on_delete_to_function,
    FieldKwargsJSON._convert_on_delete_to_string.
  rewrite Htoken, getattr_models_policy, lookup_insert_eq. simpl.
  rewrite insert_insert_eq, (insert_id d _ _ Htoken). repeat split; reflexivity.
Qed.

Lemma X16_stored_token_witness :
  reference.stored_relation_options !! "on_delete"
  = Some (VStr (FieldKwargsJSON.policy_name CASCADE))
  ∧ FieldKwargsJSON.from_db_value reference.collaborators
      (Some reference.stored_relation_options)
    = Ok (Some (<["on_delete" := VCallable (Policy CASCADE)]>
                  reference.stored_relation_options)).
Proof.
  split; [reflexivity|].
  exact (proj1 (X16_stored_token_round_trip reference.collaborators
                  reference.stored_relation_options CASCADE eq_refl)).
Defined.

(** X17: what either conversion returns differs from the mapping it was
    given in no entry other than [on_delete], and has the same keys;
    preparing for storage what has been prepared changes nothing more. *)
Theorem X17_conversions_touch_only_on_delete
    (env : Collaborators) (d : gmap string pyvalue) :
  (∀ d', FieldKwargsJSON._convert_on_delete_to_string (Some d) = Some d' →
         (∀ key, key ≠ "on_delete" → d' !! key = d !! key)
         ∧ (∀ key, is_Some (d' !! key) ↔ is_Some (d !! key)))
  ∧ (∀ d', FieldKwargsJSON._convert_on_delete_to_function env (Some d) = Ok (Some d') →
           (∀ key, key ≠ "on_delete" → d' !! key = d !! key)
           ∧ (∀ key, is_Some (d' !! key) ↔ is_Some (d !! key)))
  ∧ FieldKwargsJSON._convert_on_delete_to_string
      (FieldKwargsJSON._convert_on_delete_to_string (Some d))
    = FieldKwargsJSON._convert_on_delete_to_string (Some d).
Proof.
  assert (∀ (v : pyvalue) key,
            is_Some (d !! "on_delete") →
            is_Some (<["on_delete" := v]> d !! key) ↔ is_Some (d !! key)) as Hkeys.
  { intros v key Hpresent. destruct (decide (key = "on_delete")) as [->|Hne].
    - rewrite lookup_insert_eq. split; eauto.
    - rewrite lookup_insert_ne by congruence. reflexivity. }
  split; [|split].
  - intros d'. unfold FieldKwargsJSON._convert_on_delete_to_string.
    destruct (d !! "on_delete") as [[| | | |f]|] eqn:Hon; intros [= <-];
      try (split; [reflexivity|reflexivity]).
    split; [intros key Hne; apply lookup_insert_ne; congruence|].
    intros key. apply Hkeys. eauto.
  - intros d'. unfold FieldKwargsJSON._convert_on_delete_to_function.
    destruct (d !! "on_delete") as [[| | |token|]|] eqn:Hon;
      try (intros [= <-]; split; [reflexivity|reflexivity]).
    destruct (FieldKwargsJSON.getattr_models env token) as [f|e]; intros [= <-].
    split; [intros key Hne; apply lookup_insert_ne; congruence|].
    intros key. apply Hkeys. eauto.
  - unfold FieldKwargsJSON._convert_on_delete_to_string.
    destruct (d !! "on_delete") as [[| | | |f]|] eqn:Hon; try (rewrite Hon; reflexivity).
    rewrite lookup_insert_eq. reflexivity.
Qed.

(** X18: a stored [on_delete] token that names no attribute of
    [django.db.models] is not resolved to anything: the conversion raises
    [AttributeError], which [from_db_value] lets through and [to_python]
    turns into a [ValidationError]. *)
Theorem X18_unknown_token_is_rejected
    (env : Collaborators) (d : gmap string pyvalue) (token : string) :
  d !! "on_delete" = Some (VStr token) →
  FieldKwargsJSON.policy_named token = None →
  models_other_attr env token = None →
  FieldKwargsJSON._convert_on_delete_to_function env (Some d) = Raise (AttributeError token)
  ∧ FieldKwargsJSON.from_db_value env (Some d) = Raise (AttributeError token)
  ∧ FieldKwargsJSON.to_python env (Some d)
    = Raise (ValidationError "Invalid value for 'on_delete'").
Proof.
  intros Htoken Hpolicy Hother.
  unfold FieldKwargsJSON.from_db_value, FieldKwargsJSON.to_python,
    FieldKwargsJSON._convert_on_delete_to_function, FieldKwargsJSON.getattr_models.
  rewrite Htoken, Hpolicy, Hother. repeat split; reflexivity.
Qed.

Lemma X18_unknown_token_witness :
  ({[ "on_delete" := VStr "cascade" ]} : gmap string pyvalue) !! "on_delete"
  = Some (VStr "cascade")
  ∧ FieldKwargsJSON.to_python reference.collaborators
      (Some {[ "on_delete" := VStr "cascade" ]})
    = Raise (ValidationError "Invalid value for 'on_delete'").
Proof.
  split; [reflexivity|].
  exact (proj2 (proj2 (X18_unknown_token_is_rejected reference.collaborators
                         {[ "on_delete" := VStr "cascade" ]} "cascade"
                         eq_refl eq_refl eq_refl))).
Defined.

(** X19: a callable whose [__name__] names no attribute of
    [django.db.models], such as the closure that [models.SET(value)]
    returns, is stored under that name and cannot be loaded again: reading
    the prepared mapping raises. *)
Theorem X19_unnamed_callable_does_not_round_trip
    (env : Collaborators) (d : gmap string pyvalue) (dunder_name : string) :
  d !! "on_delete" = Some (VCallable (Function dunder_name)) →
  FieldKwargsJSON.policy_named dunder_name = None →
  models_other_attr env dunder_name = None →
  FieldKwargsJSON.get_prep_value (Some d)
  = Some (<["on_delete" := VStr dunder_name]> d)
  ∧ FieldKwargsJSON.from_db_value env (FieldKwargsJSON.get_prep_value (Some d))
    = Raise (AttributeError dunder_name)
  ∧ FieldKwargsJSON.to_python env (FieldKwargsJSON.get_prep_value (Some d))
    = Raise (ValidationError "Invalid value for 'on_delete'").
Proof.
  intros Hcallable Hpolicy Hother.
  assert (FieldKwargsJSON.get_prep_value (Some d)
          = Some (<["on_delete" := VStr dunder_name]> d)) as ->.
  { unfold FieldKwargsJSON.get_prep_value, FieldKwargsJSON._convert_on_delete_to_string.
    rewrite Hcallable. reflexivity. }
  split; [reflexivity|].
  assert ((<["on_delete" := VStr dunder_name]> d) !! "on_delete"
          = Some (VStr dunder_name)) as Htoken by apply lookup_insert_eq.
  unfold FieldKwargsJSON.from_db_value, FieldKwargsJSON.to_python,
    FieldKwargsJSON._convert_on_delete_to_function, FieldKwargsJSON.getattr_models.
  rewrite Htoken, Hpolicy, Hother. split; reflexivity.
Qed.

Lemma X19_unnamed_callable_witness :
  reference.set_options !! "on_delete" = Some (VCallable (Function "set_on_delete"))
  ∧ FieldKwargsJSON.to_python reference.collaborators
      (FieldKwargsJSON.get_prep_value (Some reference.set_options))
    = Raise (ValidationError "Invalid value for 'on_delete'").
Proof.
  split; [reflexivity|].
  exact (proj2 (proj2 (X19_unnamed_callable_does_not_round_trip reference.collaborators
                         reference.set_options "set_on_delete" eq_refl eq_refl eq_refl))).
Defined.

(** *** The null option *)

(** X20: after the [null] setter the accessor returns the value set; the
    setter changes no other option, and neither the name nor the null state
    remembered at construction. *)
Theorem X20_null_setter (self : FieldSchema.t) (value : pyvalue) :
  FieldSchema.null (FieldSchema.null_setter value self) = value
  ∧ (∀ key, key ≠ "null" →
            FieldSchema.kwargs (FieldSchema.null_setter value self) !! key
            = FieldSchema.kwargs self !! key)
  ∧ FieldSchema._initial_null (FieldSchema.null_setter value self)
    = FieldSchema._initial_null self
  ∧ FieldSchema.name (FieldSchema.null_setter value self) = FieldSchema.name self.
Proof.
  split; [|split; [|split; reflexivity]].
  - unfold FieldSchema.null, FieldSchema.null_setter. simpl.
    rewrite lookup_insert_eq. reflexivity.
  - intros key Hne. unfold FieldSchema.null_setter. simpl.
    apply lookup_insert_ne. congruence.
Qed.

(** *** Runs on the reference collaborators *)

Lemma X7_physical_names_witness :
  In "_"%char (chars (FieldSchema.db_column reference.collaborators
                        (FieldSchema.set_name "First Name" reference.email)))
  ∧ "_"%char ≠ "-"%char.
Proof.
  assert (In "_"%char (chars (FieldSchema.db_column reference.collaborators
                                (FieldSchema.set_name "First Name" reference.email))))
    as Hin by (vm_compute; tauto).
  split; [exact Hin|].
  exact (proj1 (X7_physical_names_hold_no_hyphen reference.collaborators) _ _ Hin).
Defined.

Lemma X8_model_save_witness :
  fst (ModelSchema.save reference.collaborators
         (ModelSchema.set_name "Client" reference.customer, reference.empty_world)) = Ok tt
  ∧ ModelSchema._initial_name
      (fst (snd (ModelSchema.save reference.collaborators
                   (ModelSchema.set_name "Client" reference.customer,
                    reference.empty_world))))
    = "Client".
Proof.
  assert (fst (ModelSchema.save reference.collaborators
                 (ModelSchema.set_name "Client" reference.customer, reference.empty_world))
          = Ok tt) as Hreturns by (vm_compute; reflexivity).
  split; [exact Hreturns|].
  exact (proj1 (proj2 (X8_model_save_refreshes_initial_name reference.collaborators
                         (ModelSchema.set_name "Client" reference.customer)
                         reference.empty_world)) Hreturns).
Defined.

Lemma X17_conversions_witness :
  FieldKwargsJSON._convert_on_delete_to_string (Some reference.relation_options)
  = Some reference.stored_relation_options
  ∧ reference.stored_relation_options !! "to" = reference.relation_options !! "to".
Proof.
  assert (FieldKwargsJSON._convert_on_delete_to_string (Some reference.relation_options)
          = Some reference.stored_relation_options) as Hstored.
  { unfold FieldKwargsJSON._convert_on_delete_to_string, reference.relation_options,
      reference.stored_relation_options.
    rewrite lookup_insert_eq. simpl. rewrite insert_insert_eq. reflexivity. }
  split; [exact Hstored|].
  apply (proj1 (X17_conversions_touch_only_on_delete reference.collaborators
                  reference.relation_options) _ Hstored).
  discriminate.
Defined.

Lemma X20_null_setter_witness :
  FieldSchema.null (FieldSchema.null_setter (VBool true) reference.email) = VBool true
  ∧ FieldSchema.kwargs (FieldSchema.null_setter (VBool true) reference.email) !! "max_length"
    = Some (VInt 255).
Proof.
  destruct (X20_null_setter reference.email (VBool true)) as (Hnull & Hother & _).
  split; [exact Hnull|].
  rewrite (Hother "max_length") by discriminate. reflexivity.
Defined.
